(** * Week-17-PostgreSQL: the signup and lookup handlers of [src/index.ts]

    A shallow embedding of the Express handlers of [src/index.ts] and of the
    two tables declared in [src/schema.ts].

    - JSON values are an inductive type; a request body is a record of the
      seven fields the signup handler destructures.
    - The zod schemas are data ([schema]) run by [safeParse]; the username
      pattern is a value of a small regular-expression type.
    - The relational store is a state ([database]) and [exec] runs one SQL
      statement of the handlers on it, with the constraints of the DDL.
    - A handler is a computation in a state-and-exception monad ([js]) over a
      [world]: the store, the response slot of the request being served and
      the trace of the calls made.

    What the libraries do (zod's e-mail pattern, bcrypt's digest, the text the
    pg driver sends for a non-string parameter, PostgreSQL's integer input) is
    not code of this repository: it is the interface [Libs]. The general
    theorems hold for every instance of it; the instance [stand_in] serves to
    run the handlers on examples.

    Requests are served one at a time: the statements of a request run on one
    session of a server that is reachable, so a statement fails only when the
    server refuses it. *)

From Stdlib Require Import String Ascii List ZArith Lia Bool Arith.
From Stdlib Require Import DecimalString DecimalZ.
Import ListNotations.
Local Open Scope string_scope.
Local Open Scope list_scope.
Local Open Scope nat_scope.

(** ** JavaScript values *)

(** A value found in a field of a parsed JSON body or of the query string;
    [JUndefined] is the value of an absent field. Numbers carry an integer:
    no handler looks inside a number. *)
#[local] Unset Elimination Schemes.
Inductive jsval : Type :=
| JUndefined
| JNull
| JBool (b : bool)
| JNumber (n : Z)
| JString (s : string)
| JArray (items : list jsval)
| JObject (fields : list (string * jsval)).
#[local] Set Elimination Schemes.

(** ** Regular expressions of the shape [^[...]{lo,hi}$] *)

Inductive class_item : Type :=
| CRange (lo hi : ascii)   (* a-z *)
| CChar (c : ascii)        (* a literal character *)
| CDigit.                  (* \d *)

Definition code (c : ascii) : nat := nat_of_ascii c.

Definition item_matches (i : class_item) (c : ascii) : bool :=
  match i with
  | CRange lo hi => (code lo <=? code c) && (code c <=? code hi)
  | CChar d => code c =? code d
  | CDigit => (48 <=? code c) && (code c <=? 57)
  end.

Definition class_matches (cls : list class_item) (c : ascii) : bool :=
  existsb (fun i => item_matches i c) cls.

(** [^cls{re_min,re_max}$]: no flags, so [^] and [$] are the two ends of the
    input. *)
Record regex : Type := {
  re_class : list class_item;
  re_min : nat;
  re_max : nat
}.

(** Consume characters of the class, at most [hi] of them; the end of the
    input must be reached after at least [lo]. *)
Fixpoint repeat_to_end (cls : list class_item) (lo hi : nat) (s : string)
    {struct s} : bool :=
  match s with
  | EmptyString => lo =? 0
  | String c rest =>
      match hi with
      | O => false
      | S hi' => class_matches cls c && repeat_to_end cls (pred lo) hi' rest
      end
  end.

(** [RegExp.prototype.test]. *)
Definition test (r : regex) (s : string) : bool :=
  repeat_to_end (re_class r) (re_min r) (re_max r) s.

(** ** What the libraries compute *)

Class Libs : Type := {
  (** zod's e-mail pattern on a string *)
  zod_email : string -> bool;
  (** bcrypt's digest of a string, for a cost and the salt drawn *)
  bcrypt_digest : string -> Z -> nat -> string;
  (** the text pg sends for a parameter that is a number, a boolean, an array
      or an object *)
  pg_text : jsval -> string;
  (** PostgreSQL's input conversion to [integer]; [None] is error 22P02 *)
  int4in : string -> option Z
}.

(** ** zod schemas *)

Inductive check : Type :=
| Regex (r : regex)   (* .regex(r) *)
| Email.              (* .email() *)

(** [zod.string()] followed by its checks. *)
Record schema : Type := ZString { checks : list check }.

Section Validation.
Context {L : Libs}.

Definition run_check (s : string) (c : check) : bool :=
  match c with
  | Regex r => test r s
  | Email => zod_email s
  end.

(** The [success] field of [schema.safeParse(v)]. *)
Definition safeParse (sc : schema) (v : jsval) : bool :=
  match v with
  | JString s => forallb (run_check s) (checks sc)
  | _ => false
  end.
End Validation.

(** [/^[a-z A-Z\d]{2,20}$/] *)
Definition username_pattern : regex :=
  {| re_class := [CRange "a" "z"; CChar " "; CRange "A" "Z"; CDigit];
     re_min := 2;
     re_max := 20 |}.

Definition usernameSchema : schema := ZString [Regex username_pattern].
Definition emailSchema : schema := ZString [Email].
Definition passwordSchema : schema := ZString [].
Definition citySchema : schema := ZString [].
Definition countrySchema : schema := ZString [].
Definition streetSchema : schema := ZString [].
Definition pincodeSchema : schema := ZString [].

Definition saltRounds : Z := 10.

(** ** The relational store

    The two tables of [src/schema.ts]. The [created_at] columns, filled by
    the server's clock and read by no handler, are left out. *)

Record user_row : Type := {
  u_id : Z;              (* SERIAL PRIMARY KEY *)
  u_username : string;   (* VARCHAR(50) UNIQUE NOT NULL *)
  u_email : string;      (* VARCHAR(50) UNIQUE NOT NULL *)
  u_password : string    (* VARCHAR(100) NOT NULL *)
}.

Record address_row : Type := {
  a_id : Z;                     (* SERIAL PRIMARY KEY *)
  a_user_id : Z;                (* INTEGER NOT NULL REFERENCES users(id) *)
  a_city : string;              (* VARCHAR(100) NOT NULL *)
  a_country : string;           (* VARCHAR(100) NOT NULL *)
  a_street : string;            (* VARCHAR(100) NOT NULL *)
  a_pincode : option string     (* VARCHAR(20) *)
}.

Record tables : Type := {
  users : list user_row;
  addresses : list address_row
}.

(** The state of the session the statements run on. A transaction keeps the
    tables as they were at BEGIN, for ROLLBACK; after an error inside a
    transaction the session refuses statements until it is ended. *)
Inductive session : Type :=
| Idle
| InTransaction (saved : tables)
| Aborted (saved : tables).

Record database : Type := {
  current : tables;          (* the tables as the session sees them *)
  users_id_seq : Z;          (* last value of the sequence behind users.id *)
  addresses_id_seq : Z;      (* last value of the sequence behind addresses.id *)
  txn : session
}.

(** The tables as committed: what a later reader finds. *)
Definition committed (d : database) : tables :=
  match txn d with
  | Idle => current d
  | InTransaction saved | Aborted saved => saved
  end.

Inductive sqlerror : Type :=
| not_null_violation              (* 23502 *)
| unique_violation                (* 23505 *)
| foreign_key_violation           (* 23503 *)
| string_data_right_truncation    (* 22001 *)
| invalid_text_representation     (* 22P02 *)
| sequence_limit_exceeded         (* 2200H *)
| in_failed_sql_transaction       (* 25P02 *)
| character_not_in_repertoire.    (* 22021 *)

(** The statements the handlers send, with their parameters as the driver
    passes them: [None] is NULL. *)
Inductive statement : Type :=
| BEGIN
| COMMIT
| ROLLBACK
| INSERT_users (username email password : option string)
| INSERT_addresses (user_id : Z) (city country street pincode : option string)
| SELECT_user (id : option string)
| SELECT_addresses (user_id : option string)
| SELECT_join (id : option string).

Inductive row : Type :=
| RId (id : Z)                                   (* RETURNING id *)
| RUser (id : Z) (username email : string)       (* SELECT id, username, email *)
| RAddress (a : address_row)                     (* SELECT * FROM addresses *)
| RJoined (id : Z) (username email city country street : string)
          (pincode : option string).             (* the projection of the join *)

Definition sql (A : Type) : Type := (sqlerror + A)%type.

Definition sql_bind {A B : Type} (m : sql A) (k : A -> sql B) : sql B :=
  match m with
  | inl e => inl e
  | inr a => k a
  end.

Notation "x <~ m ; k" := (sql_bind m (fun x => k))
  (at level 61, m at next level, right associativity).

Fixpoint all_spaces (s : string) : bool :=
  match s with
  | EmptyString => true
  | String c rest => (code c =? 32) && all_spaces rest
  end.

(** A string is the UTF-8 text of what JavaScript holds, as the driver sends
    it. A byte between 0x80 and 0xBF continues the character begun before. *)
Definition continuation (c : ascii) : bool :=
  (128 <=? code c) && (code c <=? 191).

Fixpoint has_nul (s : string) : bool :=
  match s with
  | EmptyString => false
  | String c rest => (code c =? 0) || has_nul rest
  end.

(** A text parameter as the server reads it: the character U+0000 is
    refused. NULL stays NULL. *)
Definition text_in (v : option string) : sql (option string) :=
  match v with
  | None => inr None
  | Some s => if has_nul s then inl character_not_in_repertoire else inr (Some s)
  end.

(** The first [n] characters of a string, and what follows them. *)
Fixpoint split_chars (n : nat) (s : string) : string * string :=
  match s with
  | EmptyString => (EmptyString, EmptyString)
  | String c rest =>
      if continuation c
      then let (head, excess) := split_chars n rest in (String c head, excess)
      else match n with
           | O => (EmptyString, s)
           | S n' =>
               let (head, excess) := split_chars n' rest in
               (String c head, excess)
           end
  end.

(** Assignment to a VARCHAR(n) column, [n] counting characters: a longer
    string is an error unless the excess is spaces, which are cut. NULL stays
    NULL. *)
Definition varchar (n : nat) (v : option string) : sql (option string) :=
  match v with
  | None => inr None
  | Some s =>
      match split_chars n s with
      | (_, EmptyString) => inr (Some s)
      | (head, excess) =>
          if all_spaces excess then inr (Some head)
          else inl string_data_right_truncation
      end
  end.

Definition not_null {A : Type} (v : option A) : sql A :=
  match v with
  | Some a => inr a
  | None => inl not_null_violation
  end.

Definition unique {A : Type} (taken : A -> bool) (rows : list A) : sql unit :=
  if existsb taken rows then inl unique_violation else inr tt.

(** nextval of a sequence of type integer. *)
Definition nextval (last : Z) : sql Z :=
  if (last <? 2147483647)%Z then inr (last + 1)%Z else inl sequence_limit_exceeded.

(** The values of the three text columns of an INSERT into users: the
    parameters read, then fitted to the columns. This is settled before the
    statement runs. *)
Definition users_columns (username email password : option string)
    : sql (option string * option string * option string) :=
  username0 <~ text_in username;
  email0 <~ text_in email;
  password0 <~ text_in password;
  username' <~ varchar 50 username0;
  email' <~ varchar 50 email0;
  password' <~ varchar 100 password0;
  inr (username', email', password').

(** The row under the id drawn, checked against NOT NULL, the primary key and
    the two UNIQUE constraints. *)
Definition users_row (id : Z)
    (columns : option string * option string * option string) (t : tables)
    : sql user_row :=
  let '(username', email', password') := columns in
  u <~ not_null username';
  e <~ not_null email';
  p <~ not_null password';
  _ <~ unique (fun r => (u_id r =? id)%Z) (users t);
  _ <~ unique (fun r => String.eqb (u_username r) u) (users t);
  _ <~ unique (fun r => String.eqb (u_email r) e) (users t);
  inr {| u_id := id; u_username := u; u_email := e; u_password := p |}.

(** The row an INSERT into users stores under the id [id], or its refusal. *)
Definition new_user (id : Z) (username email password : option string)
    (t : tables) : sql user_row :=
  columns <~ users_columns username email password;
  users_row id columns t.

Definition addresses_columns (city country street pincode : option string)
    : sql (option string * option string * option string * option string) :=
  city0 <~ text_in city;
  country0 <~ text_in country;
  street0 <~ text_in street;
  pincode0 <~ text_in pincode;
  city' <~ varchar 100 city0;
  country' <~ varchar 100 country0;
  street' <~ varchar 100 street0;
  pincode' <~ varchar 20 pincode0;
  inr (city', country', street', pincode').

Definition addresses_row (id user_id : Z)
    (columns : option string * option string * option string * option string)
    (t : tables) : sql address_row :=
  let '(city', country', street', pincode') := columns in
  c <~ not_null city';
  k <~ not_null country';
  s <~ not_null street';
  _ <~ unique (fun r => (a_id r =? id)%Z) (addresses t);
  _ <~ (if existsb (fun r => (u_id r =? user_id)%Z) (users t)
        then inr tt else inl foreign_key_violation);
  inr {| a_id := id; a_user_id := user_id; a_city := c; a_country := k;
         a_street := s; a_pincode := pincode' |}.

(** The row an INSERT into addresses stores under the id [id], or its
    refusal. *)
Definition new_address (id user_id : Z) (city country street pincode : option string)
    (t : tables) : sql address_row :=
  columns <~ addresses_columns city country street pincode;
  addresses_row id user_id columns t.

Section Store.
Context {L : Libs}.

(** A parameter compared with an integer column. *)
Definition int4 (p : option string) : sql (option Z) :=
  match p with
  | None => inr None
  | Some text =>
      match int4in text with
      | Some n => inr (Some n)
      | None => inl invalid_text_representation
      end
  end.

Definition users_with_id (n : Z) (t : tables) : list user_row :=
  filter (fun u => (u_id u =? n)%Z) (users t).

Definition addresses_of (n : Z) (t : tables) : list address_row :=
  filter (fun a => (a_user_id a =? n)%Z) (addresses t).

Definition joined (u : user_row) (a : address_row) : row :=
  RJoined (u_id u) (u_username u) (u_email u)
          (a_city a) (a_country a) (a_street a) (a_pincode a).

(** [SELECT id, username, email FROM users WHERE id = $1] *)
Definition select_user (p : option string) (t : tables) : sql (list row) :=
  n <~ int4 p;
  inr match n with
      | None => []
      | Some n => map (fun u => RUser (u_id u) (u_username u) (u_email u))
                      (users_with_id n t)
      end.

(** [SELECT * FROM addresses WHERE user_id = $1] *)
Definition select_addresses (p : option string) (t : tables) : sql (list row) :=
  n <~ int4 p;
  inr match n with
      | None => []
      | Some n => map RAddress (addresses_of n t)
      end.

(** [SELECT ... FROM users JOIN addresses ON users.id = addresses.user_id
    WHERE users.id = $1] *)
Definition select_join (p : option string) (t : tables) : sql (list row) :=
  n <~ int4 p;
  inr match n with
      | None => []
      | Some n =>
          flat_map (fun u => map (joined u) (addresses_of (u_id u) t))
                   (users_with_id n t)
      end.

Definition with_current (t : tables) (d : database) : database :=
  {| current := t; users_id_seq := users_id_seq d;
     addresses_id_seq := addresses_id_seq d; txn := txn d |}.

Definition with_txn (s : session) (d : database) : database :=
  {| current := current d; users_id_seq := users_id_seq d;
     addresses_id_seq := addresses_id_seq d; txn := s |}.

Definition with_users_id_seq (n : Z) (d : database) : database :=
  {| current := current d; users_id_seq := n;
     addresses_id_seq := addresses_id_seq d; txn := txn d |}.

Definition with_addresses_id_seq (n : Z) (d : database) : database :=
  {| current := current d; users_id_seq := users_id_seq d;
     addresses_id_seq := n; txn := txn d |}.

(** One statement on the tables the session sees. The parameters of an
    INSERT are read and fitted to their columns before the statement runs:
    a refusal there draws no id. Once the id is drawn the sequence keeps it,
    also when a constraint then refuses the row. *)
Definition run (q : statement) (d : database) : sql (list row) * database :=
  match q with
  | INSERT_users username email password =>
      match users_columns username email password with
      | inl e => (inl e, d)
      | inr columns =>
          match nextval (users_id_seq d) with
          | inl e => (inl e, d)
          | inr id =>
              let d' := with_users_id_seq id d in
              match users_row id columns (current d) with
              | inl e => (inl e, d')
              | inr r =>
                  (inr [RId id],
                   with_current {| users := users (current d) ++ [r];
                                   addresses := addresses (current d) |} d')
              end
          end
      end
  | INSERT_addresses user_id city country street pincode =>
      match addresses_columns city country street pincode with
      | inl e => (inl e, d)
      | inr columns =>
          match nextval (addresses_id_seq d) with
          | inl e => (inl e, d)
          | inr id =>
              let d' := with_addresses_id_seq id d in
              match addresses_row id user_id columns (current d) with
              | inl e => (inl e, d')
              | inr r =>
                  (inr [],
                   with_current {| users := users (current d);
                                   addresses := addresses (current d) ++ [r] |} d')
              end
          end
      end
  | SELECT_user p => (select_user p (current d), d)
  | SELECT_addresses p => (select_addresses p (current d), d)
  | SELECT_join p => (select_join p (current d), d)
  | BEGIN | COMMIT | ROLLBACK => (inr [], d)
  end.

(** [pool.query] as the server answers it, the statements of a request
    running on one session. Outside a transaction a statement commits on
    its own; BEGIN inside a transaction, and COMMIT or ROLLBACK outside
    one, only draw a warning. *)
Definition exec (q : statement) (d : database) : sql (list row) * database :=
  match q, txn d with
  | BEGIN, Idle => (inr [], with_txn (InTransaction (current d)) d)
  | BEGIN, InTransaction _ => (inr [], d)
  | COMMIT, Idle => (inr [], d)
  | COMMIT, InTransaction _ => (inr [], with_txn Idle d)
  | ROLLBACK, Idle => (inr [], d)
  | ROLLBACK, InTransaction saved
  | ROLLBACK, Aborted saved
  | COMMIT, Aborted saved => (inr [], with_txn Idle (with_current saved d))
  | _, Aborted _ => (inl in_failed_sql_transaction, d)
  | _, Idle => run q d
  | _, InTransaction saved =>
      match run q d with
      | (inl e, d') => (inl e, with_txn (Aborted saved) d')
      | (inr rows, d') => (inr rows, d')
      end
  end.
End Store.

(** ** Handlers: state, responses and exceptions *)

Inductive exn : Type :=
| BcryptError                    (* bcrypt.hash rejects data that is not a string *)
| DatabaseError (e : sqlerror)   (* pool.query rejects *)
| TypeError                      (* a property of undefined is read *)
| HeadersSent.                   (* a response is sent on a request already answered *)

(** The JSON bodies the handlers send. *)
Inductive body : Type :=
| message (m : string)                               (* { message } *)
| user_addresses (user : row) (addresses : list row) (* { user, addresses } *)
| userAndAddresses (r : row).                        (* { userAndAddresses } *)

Inductive event : Type :=
| Json (status : Z) (b : body)               (* res.status(status).json(b) *)
| Hash (data : jsval) (rounds : Z)           (* bcrypt.hash(data, rounds) *)
| Query (q : statement)                      (* pool.query(q) *)
| ConsoleLog (text : string)
| ConsoleError (text : string) (error : exn).

(** What a handler acts on while it serves one request. [sent] is the
    response the client receives: the first one sent. *)
Record world : Type := {
  store : database;
  salts : nat;                  (* salts drawn so far *)
  sent : option (Z * body);
  trace : list event            (* the calls made, oldest first *)
}.

Inductive outcome (A : Type) : Type :=
| Returned (a : A)
| Thrown (e : exn).
Arguments Returned {A} a.
Arguments Thrown {A} e.

Definition js (A : Type) : Type := world -> outcome A * world.

Definition ret {A : Type} (a : A) : js A := fun w => (Returned a, w).

Definition throw {A : Type} (e : exn) : js A := fun w => (Thrown e, w).

Definition bind {A B : Type} (m : js A) (k : A -> js B) : js B :=
  fun w =>
    match m w with
    | (Returned a, w') => k a w'
    | (Thrown e, w') => (Thrown e, w')
    end.

(** [try { body } catch (error) { handler }] *)
Definition try_catch {A : Type} (body : js A) (handler : exn -> js A) : js A :=
  fun w =>
    match body w with
    | (Returned a, w') => (Returned a, w')
    | (Thrown e, w') => handler e w'
    end.

Declare Scope js_scope.
Delimit Scope js_scope with js.
Notation "x <- m ;; k" := (bind m (fun x => k))
  (at level 61, m at next level, right associativity) : js_scope.
Notation "m ;; k" := (bind m (fun _ => k))
  (at level 61, right associativity) : js_scope.

Definition emit (e : event) : js unit :=
  fun w => (Returned tt,
            {| store := store w; salts := salts w; sent := sent w;
               trace := trace w ++ [e] |}).

Definition console_log (text : string) : js unit := emit (ConsoleLog text).

Definition console_error (text : string) (error : exn) : js unit :=
  emit (ConsoleError text error).

(** [res.status(status).json(b)]: the response goes out if none has gone out
    for this request; otherwise setting the headers throws. *)
Definition json (status : Z) (b : body) : js unit :=
  (emit (Json status b) ;;
   fun w =>
     match sent w with
     | Some _ => (Thrown HeadersSent, w)
     | None => (Returned tt,
                {| store := store w; salts := salts w;
                   sent := Some (status, b); trace := trace w |})
     end)%js.

(** [rows[0].id] *)
Definition first_id (rows : list row) : js Z :=
  match rows with
  | [] => throw TypeError
  | RId id :: _ | RUser id _ _ :: _ | RJoined id _ _ _ _ _ _ :: _ => ret id
  | RAddress a :: _ => ret (a_id a)
  end.

Section Handlers.
Context {L : Libs}.

(** [bcrypt.hash(data, rounds)] *)
Definition bcrypt_hash (data : jsval) (rounds : Z) : js string :=
  (emit (Hash data rounds) ;;
   fun w =>
     match data with
     | JString s =>
         (Returned (bcrypt_digest s rounds (salts w)),
          {| store := store w; salts := S (salts w); sent := sent w;
             trace := trace w |})
     | _ => (Thrown BcryptError, w)
     end)%js.

(** A query parameter as the driver sends it. *)
Definition prepareValue (v : jsval) : option string :=
  match v with
  | JUndefined | JNull => None
  | JString s => Some s
  | _ => Some (pg_text v)
  end.

(** [pool.query(q)] *)
Definition query (q : statement) : js (list row) :=
  (emit (Query q) ;;
   fun w =>
     let (r, d) := exec q (store w) in
     let w' := {| store := d; salts := salts w; sent := sent w;
                  trace := trace w |} in
     match r with
     | inl e => (Thrown (DatabaseError e), w')
     | inr rows => (Returned rows, w')
     end)%js.

(** [req.body] of POST /signup, destructured. *)
Record signup_body : Type := {
  username : jsval;
  email : jsval;
  password : jsval;
  city : jsval;
  country : jsval;
  street : jsval;
  pincode : jsval
}.

(** The condition of the [if] of the signup handler: some field did not
    parse. All seven are parsed before the condition is looked at. *)
Definition some_field_failed (b : signup_body) : bool :=
  let usernameResponse := safeParse usernameSchema (username b) in
  let emailResponse := safeParse emailSchema (email b) in
  let passwordResponse := safeParse passwordSchema (password b) in
  let cityResponse := safeParse citySchema (city b) in
  let countryResponse := safeParse countrySchema (country b) in
  let streetResponse := safeParse streetSchema (street b) in
  let pincodeResponse := safeParse pincodeSchema (pincode b) in
  negb usernameResponse || negb emailResponse || negb passwordResponse
  || negb cityResponse || negb countryResponse || negb streetResponse
  || negb pincodeResponse.

(** The request passes field validation. *)
Definition all_parsed (b : signup_body) : bool := negb (some_field_failed b).

(** The statements of the [try] block of [app.post('/signup', ...)]. *)
Definition signup_try (b : signup_body) : js unit :=
  ((if some_field_failed b
    then json 401 (message "Invalid Entry")
    else ret tt) ;;
   hashedPassword <- bcrypt_hash (password b) saltRounds ;;
   query BEGIN ;;
   usersRes <- query (INSERT_users (prepareValue (username b))
                                   (prepareValue (email b))
                                   (prepareValue (JString hashedPassword))) ;;
   console_log "Inserted Data Successfully into 'users' table" ;;
   userId <- first_id usersRes ;;
   query (INSERT_addresses userId (prepareValue (city b))
                           (prepareValue (country b))
                           (prepareValue (street b))
                           (prepareValue (pincode b))) ;;
   console_log "Inserted Data Successfully into 'addresses' table" ;;
   query COMMIT ;;
   json 201 (message "Data Inserted Successfully"))%js.

(** The [catch] block of the signup handler. *)
Definition signup_catch (error : exn) : js unit :=
  (query ROLLBACK ;;
   console_error "Error during transaction, rolled back." error ;;
   json 500 (message "Error Inserting Data"))%js.

(** [app.post('/signup', ...)] *)
Definition signup (b : signup_body) : js unit :=
  try_catch (signup_try b) signup_catch.

(** [app.get('/user/badapproach', ...)], on [req.query.id]. *)
Definition badapproach (id : jsval) : js unit :=
  try_catch
    (let user_id := id in
     userRes <- query (SELECT_user (prepareValue user_id)) ;;
     match userRes with
     | [] => json 404 (message "User Not Found")
     | user :: _ =>
         addressesRes <- query (SELECT_addresses (prepareValue user_id)) ;;
         let addresses := addressesRes in
         json 200 (user_addresses user addresses)
     end)%js
    (fun error =>
       console_error "Error Fetching Data" error ;;
       json 500 (message "Error Fetching Data"))%js.

(** [app.get('/user/goodapproach', ...)], on [req.query.id]. *)
Definition goodapproach (id : jsval) : js unit :=
  try_catch
    (let user_id := id in
     usersAndAddressesRes <- query (SELECT_join (prepareValue user_id)) ;;
     match usersAndAddressesRes with
     | [] => json 404 (message "User Not Found")
     | row0 :: _ => json 200 (userAndAddresses row0)
     end)%js
    (fun error =>
       console_error "Error Fetching Data" error ;;
       json 500 (message "Error Fetching Data"))%js.
End Handlers.

(** A request arrives: no response sent yet, an empty trace. *)
Definition arrival (d : database) (n : nat) : world :=
  {| store := d; salts := n; sent := None; trace := [] |}.

Definition empty_database : database :=
  {| current := {| users := []; addresses := [] |};
     users_id_seq := 0; addresses_id_seq := 0; txn := Idle |}.

(** ** Stand-ins for the libraries, to run the handlers on examples *)

Fixpoint split_at (c : ascii) (s : string) : option (string * string) :=
  match s with
  | EmptyString => None
  | String x rest =>
      if code x =? code c then Some (EmptyString, rest)
      else match split_at c rest with
           | Some (l, r) => Some (String x l, r)
           | None => None
           end
  end.

(** Text, one [@], text, a dot, text. *)
Definition plain_email (s : string) : bool :=
  match split_at "@" s with
  | Some (l, d) =>
      negb (String.eqb l "")
      && match split_at "@" d with Some _ => false | None => true end
      && match split_at "." d with
         | Some (a, b) => negb (String.eqb a "") && negb (String.eqb b "")
         | None => false
         end
  | None => false
  end.

(** A decimal literal in the range of [integer]. *)
Definition decimal_int4 (s : string) : option Z :=
  match NilEmpty.int_of_string s with
  | Some i =>
      let n := Z.of_int i in
      if String.eqb s "" then None
      else if ((-2147483648 <=? n) && (n <=? 2147483647))%Z then Some n
      else None
  | None => None
  end.

Definition plain_text (v : jsval) : string :=
  match v with
  | JNumber n => NilZero.string_of_int (Z.to_int n)
  | JBool true => "true"
  | JBool false => "false"
  | JArray _ => "{}"
  | _ => "{}"
  end.

Definition stand_in : Libs :=
  {| zod_email := plain_email;
     bcrypt_digest := fun data _ _ => String.append "$2b$10$" data;
     pg_text := plain_text;
     int4in := decimal_int4 |}.

(** The registration of the scenario of the specification. *)
Definition al : signup_body :=
  {| username := JString "al"; email := JString "a@b.com";
     password := JString "x"; city := JString "NY"; country := JString "US";
     street := JString "Main"; pincode := JString "10001" |}.

(** The same registration under a one-character username. *)
Definition one_letter : signup_body :=
  {| username := JString "a"; email := JString "a@b.com";
     password := JString "x"; city := JString "NY"; country := JString "US";
     street := JString "Main"; pincode := JString "10001" |}.

Definition no_pincode : signup_body :=
  {| username := JString "al"; email := JString "a@b.com";
     password := JString "x"; city := JString "NY"; country := JString "US";
     street := JString "Main"; pincode := JUndefined |}.


Definition no_password : signup_body :=
  {| username := JString "al"; email := JString "a@b.com";
     password := JUndefined; city := JString "NY"; country := JString "US";
     street := JString "Main"; pincode := JString "10001" |}.

(** ** The steps of a signup, named *)

Definition invalid_entry : event := Json 401 (message "Invalid Entry").

(** What the [if] of the signup handler adds to the trace. *)
Definition rejection {L : Libs} (b : signup_body) : list event :=
  if all_parsed b then [] else [invalid_entry].

(** The response sent once the [if] of the signup handler is passed. *)
Definition first_response {L : Libs} (b : signup_body) : option (Z * body) :=
  if all_parsed b then None else Some (401%Z, message "Invalid Entry").

Definition users_statement {L : Libs} (b : signup_body) (hashedPassword : string)
    : statement :=
  INSERT_users (prepareValue (username b)) (prepareValue (email b))
               (prepareValue (JString hashedPassword)).

Definition addresses_statement {L : Libs} (b : signup_body) (userId : Z)
    : statement :=
  INSERT_addresses userId (prepareValue (city b)) (prepareValue (country b))
                   (prepareValue (street b)) (prepareValue (pincode b)).

(** The session after BEGIN on an idle session. *)
Definition begun (d : database) : database :=
  with_txn (InTransaction (current d)) d.

(** The calls of the [catch] block of the signup handler. *)
Definition catch_calls (error : exn) : list event :=
  [Query ROLLBACK;
   ConsoleError "Error during transaction, rolled back." error;
   Json 500 (message "Error Inserting Data")].

(** A world after one more call, and after the store answered. *)
Definition logged (e : event) (w : world) : world :=
  {| store := store w; salts := salts w; sent := sent w;
     trace := trace w ++ [e] |}.

Definition stored (d : database) (w : world) : world :=
  {| store := d; salts := salts w; sent := sent w; trace := trace w |}.

(** A computation only adds calls to the trace. *)
Definition extends {A : Type} (m : js A) : Prop :=
  forall w, exists calls, trace (snd (m w)) = trace w ++ calls.

(** The world a handler leaves behind, for a request that arrives at [d]. *)
Definition served (h : js unit) (d : database) (n : nat) : world :=
  snd (h (arrival d n)).

(** The store once [al] has signed up. *)
Definition store_with_al : database :=
  store (served (signup (L := stand_in) al) empty_database 0).

(** A store in which [al] has two addresses. *)
Definition al_row : user_row :=
  {| u_id := 1; u_username := "al"; u_email := "a@b.com";
     u_password := "$2b$10$x" |}.

Definition home : address_row :=
  {| a_id := 1; a_user_id := 1; a_city := "NY"; a_country := "US";
     a_street := "Main"; a_pincode := Some "10001" |}.

Definition office : address_row :=
  {| a_id := 2; a_user_id := 1; a_city := "LA"; a_country := "US";
     a_street := "Vine"; a_pincode := None |}.

Definition store_with_two_addresses : database :=
  {| current := {| users := [al_row]; addresses := [home; office] |};
     users_id_seq := 1; addresses_id_seq := 2; txn := Idle |}.

(** A store in which [al] has no address. *)
Definition store_without_address : database :=
  {| current := {| users := [al_row]; addresses := [] |};
     users_id_seq := 1; addresses_id_seq := 0; txn := Idle |}.

(** The store between two requests: no transaction is open, and the ids of
    the users are a key. *)
Definition at_rest (d : database) : Prop :=
  txn d = Idle /\ NoDup (map u_id (users (current d))).

(** ** The words of the specification *)

Definition ascii_letter (c : ascii) : Prop :=
  (65 <= code c <= 90) \/ (97 <= code c <= 122).

Definition ascii_digit (c : ascii) : Prop := 48 <= code c <= 57.

(** "A string of length 2 to 20 whose every character is an ASCII letter, an
    ASCII digit, or a space." *)
Definition username_rule (v : jsval) : Prop :=
  exists s, v = JString s
            /\ 2 <= String.length s <= 20
            /\ Forall (fun c => ascii_letter c \/ ascii_digit c \/ c = " "%char)
                      (list_ascii_of_string s).

(** The field is omitted, or supplied as null. *)
Definition absent_or_null (v : jsval) : Prop := v = JUndefined \/ v = JNull.

Definition is_string (v : jsval) : bool :=
  match v with
  | JString _ => true
  | _ => false
  end.

(** The response the client receives is [status] with [{ message: m }]. *)
Definition responds (w : world) (status : Z) (m : string) : Prop :=
  sent w = Some (status, message m).

(** ** The constraints of [src/schema.ts], as properties of a store

    What the DDL declares (primary keys, UNIQUE, the foreign key), for a store
    between two requests; the ids are those the sequences gave out. *)
Record consistent (d : database) : Prop := {
  no_open_transaction : txn d = Idle;
  users_pkey : NoDup (map u_id (users (current d)));
  users_username_key : NoDup (map u_username (users (current d)));
  users_email_key : NoDup (map u_email (users (current d)));
  addresses_pkey : NoDup (map a_id (addresses (current d)));
  addresses_user_id_fkey :
    forall a, In a (addresses (current d)) ->
              In (a_user_id a) (map u_id (users (current d)));
  users_id_from_seq :
    forall u, In u (users (current d)) -> (u_id u <= users_id_seq d)%Z;
  addresses_id_from_seq :
    forall a, In a (addresses (current d)) -> (a_id a <= addresses_id_seq d)%Z
}.

(** The field is a string of at most [n] characters. *)
Definition fits (n : nat) (v : jsval) : Prop :=
  exists s, v = JString s /\ String.length s <= n.

(** The statements sent, in the order of the calls. *)
Definition queries (t : list event) : list statement :=
  flat_map (fun e => match e with Query q => [q] | _ => [] end) t.

(** The status of the response the client holds. *)
Definition status (w : world) : option Z := option_map fst (sent w).

(** ** Table creation ([src/schema.ts])

    The catalog of the database before and after the bootstrap script: a
    table is absent, or present with its rows and the last value of the
    sequence of its id. A table that is present has the declared columns. *)
Record catalog : Type := {
  users_table : option (list user_row * Z);
  addresses_table : option (list address_row * Z)
}.

Inductive ddl : Type :=
| CREATE_TABLE_users        (* CREATE TABLE IF NOT EXISTS users (...) *)
| CREATE_TABLE_addresses.   (* CREATE TABLE IF NOT EXISTS addresses (...) *)

Inductive ddl_error : Type :=
| undefined_table.          (* 42P01: the table REFERENCES names is absent *)

(** One statement of the script. IF NOT EXISTS: a table that is present is
    left alone; the foreign key of addresses needs the table users. *)
Definition create (q : ddl) (c : catalog) : (ddl_error + unit) * catalog :=
  match q with
  | CREATE_TABLE_users =>
      match users_table c with
      | Some _ => (inr tt, c)
      | None => (inr tt, {| users_table := Some ([], 0%Z);
                            addresses_table := addresses_table c |})
      end
  | CREATE_TABLE_addresses =>
      match addresses_table c with
      | Some _ => (inr tt, c)
      | None =>
          match users_table c with
          | Some _ => (inr tt, {| users_table := users_table c;
                                  addresses_table := Some ([], 0%Z) |})
          | None => (inl undefined_table, c)
          end
      end
  end.

Inductive console_line : Type :=
| Log (text : string)
| LogError (text : string) (error : ddl_error).

(** [createTable()]: the two statements in a [try], the error of either
    logged by the [catch]. Returns the lines logged and the catalog. *)
Definition createTable (c : catalog) : list console_line * catalog :=
  let createUsersTableQuery := CREATE_TABLE_users in
  let createAddressesTableQuery := CREATE_TABLE_addresses in
  match create createUsersTableQuery c with
  | (inl error, c1) => ([LogError "Error Creating Table : " error], c1)
  | (inr _, c1) =>
      match create createAddressesTableQuery c1 with
      | (inl error, c2) =>
          ([Log "Users Table Created Successfully";
            LogError "Error Creating Table : " error], c2)
      | (inr _, c2) =>
          ([Log "Users Table Created Successfully";
            Log "Addresses Table Created Successfully"], c2)
      end
  end.

(** The store the handlers work on, once both tables are there. *)
Definition installed (c : catalog) : option database :=
  match users_table c, addresses_table c with
  | Some (us, useq), Some (ads, aseq) =>
      Some {| current := {| users := us; addresses := ads |};
              users_id_seq := useq; addresses_id_seq := aseq; txn := Idle |}
  | _, _ => None
  end.

Definition no_table : catalog :=
  {| users_table := None; addresses_table := None |}.

(** A request that parses, with a city of 101 characters. *)
Definition long_city : signup_body :=
  {| username := JString "al"; email := JString "a@b.com";
     password := JString "x";
     city := JString (string_of_list_ascii (repeat "x"%char 101));
     country := JString "US"; street := JString "Main";
     pincode := JString "10001" |}.

(** [al]'s username under another e-mail address, and the reverse. *)
Definition same_username : signup_body :=
  {| username := JString "al"; email := JString "c@d.org";
     password := JString "y"; city := JString "LA"; country := JString "US";
     street := JString "Vine"; pincode := JString "90001" |}.

Definition same_email : signup_body :=
  {| username := JString "bo"; email := JString "a@b.com";
     password := JString "y"; city := JString "LA"; country := JString "US";
     street := JString "Vine"; pincode := JString "90001" |}.

(** A string of ASCII characters, U+0000 not among them: one byte is one
    character. *)
Definition ascii_text (s : string) : Prop :=
  Forall (fun c => 1 <= code c <= 127) (list_ascii_of_string s).

(** The field is a string of more than [n] printable ASCII characters, the
    space not among them. *)
Definition too_long (n : nat) (v : jsval) : Prop :=
  exists s, v = JString s
            /\ n < String.length s
            /\ Forall (fun c => 33 <= code c <= 126) (list_ascii_of_string s).

(** The body of a signup request whose seven fields are strings. *)
Definition payload (name mail pw c k st z : string) : signup_body :=
  {| username := JString name; email := JString mail; password := JString pw;
     city := JString c; country := JString k; street := JString st;
     pincode := JString z |}.

(** ** Requests, one after the other *)

Inductive request : Type :=
| POST_signup (b : signup_body)
| GET_badapproach (id : jsval)
| GET_goodapproach (id : jsval).

(** The routes of [app]. *)
Definition handler {L : Libs} (r : request) : js unit :=
  match r with
  | POST_signup b => signup b
  | GET_badapproach id => badapproach id
  | GET_goodapproach id => goodapproach id
  end.

(** The store and the salts drawn, once the request is served. *)
Definition serve {L : Libs} (st : database * nat) (r : request)
    : database * nat :=
  (store (served (handler r) (fst st) (snd st)),
   salts (served (handler r) (fst st) (snd st))).

Definition serve_all {L : Libs} (rs : list request) (st : database * nat)
    : database * nat :=
  fold_left serve rs st.

(** The answer of the joined lookup, read off the answer of the two-query
    lookup: the first address only, and no user when there is no address. *)
Definition joined_answer (r : option (Z * body)) : option (Z * body) :=
  match r with
  | Some (_, user_addresses (RUser id name mail) (RAddress a :: _)) =>
      Some (200%Z,
            userAndAddresses
              (RJoined id name mail (a_city a) (a_country a) (a_street a)
                       (a_pincode a)))
  | Some (_, user_addresses _ _) => Some (404%Z, message "User Not Found")
  | other => other
  end.

(** * Validation *)

Lemma repeat_to_end_spec (cls : list class_item) (s : string) :
  forall lo hi,
    repeat_to_end cls lo hi s = true <->
    lo <= String.length s <= hi
    /\ Forall (fun c => class_matches cls c = true) (list_ascii_of_string s).
Proof.
  induction s as [|c rest IH]; intros lo hi;
    cbn [repeat_to_end String.length list_ascii_of_string].
  - rewrite Nat.eqb_eq. split.
    + intros ->. split; [lia | constructor].
    + intros [Hlen _]. lia.
  - destruct hi as [|hi'].
    + split; [discriminate | intros [Hlen _]; lia].
    + rewrite andb_true_iff, IH. split.
      * intros [Hc [Hlen Hall]]. split; [lia | now constructor].
      * intros [Hlen Hall]. inversion Hall; subst. repeat split; try assumption; lia.
Qed.

Lemma code_inj (c d : ascii) : code c = code d -> c = d.
Proof.
  unfold code. intros H.
  rewrite <- (ascii_nat_embedding c), <- (ascii_nat_embedding d).
  now rewrite H.
Qed.

Lemma username_class (c : ascii) :
  class_matches (re_class username_pattern) c = true <->
  ascii_letter c \/ ascii_digit c \/ c = " "%char.
Proof.
  unfold class_matches, ascii_letter, ascii_digit. cbn [username_pattern re_class existsb item_matches].
  change (code "a") with 97. change (code "z") with 122.
  change (code "A") with 65. change (code "Z") with 90.
  change (code " ") with 32.
  rewrite !orb_true_iff, !andb_true_iff, !Nat.leb_le, Nat.eqb_eq.
  split.
  - intros [H | [H | [H | [H | H]]]]; try discriminate; try lia.
    right. right. apply code_inj. exact H.
  - intros [[H | H] | [H | H]]; try lia.
    subst c. right. left. reflexivity.
Qed.

Lemma safeParse_string_only {L : Libs} (sc : schema) (v : jsval) :
  safeParse sc v = true -> exists s, v = JString s.
Proof.
  destruct v; simpl; try discriminate. intros _. now eexists.
Qed.

Lemma safeParse_plain {L : Libs} (v : jsval) :
  safeParse (ZString []) v = is_string v.
Proof. destruct v; reflexivity. Qed.

Lemma usernameSchema_rule {L : Libs} (v : jsval) :
  safeParse usernameSchema v = true <-> username_rule v.
Proof.
  unfold username_rule. split.
  - intros H. destruct (safeParse_string_only _ _ H) as [s ->].
    exists s. split; [reflexivity|].
    simpl in H. rewrite andb_true_r in H. unfold test in H.
    apply repeat_to_end_spec in H. destruct H as [Hlen Hall].
    split; [exact Hlen|].
    eapply Forall_impl; [|exact Hall].
    intros c Hc. now apply username_class.
  - intros [s [-> [Hlen Hall]]]. simpl. rewrite andb_true_r. unfold test.
    apply repeat_to_end_spec. split; [exact Hlen|].
    eapply Forall_impl; [|exact Hall].
    intros c Hc. now apply username_class.
Qed.

(** C6. A username passes [usernameSchema] exactly when it is a string of 2
    to 20 characters, each an ASCII letter, an ASCII digit or a space; the
    one-character username "a" fails. *)
Theorem username_passes_iff_rule :
  forall (L : Libs) (v : jsval),
    (safeParse usernameSchema v = true <-> username_rule v)
    /\ safeParse usernameSchema (JString "a") = false.
Proof.
  intros L v. split; [apply usernameSchema_rule | reflexivity].
Qed.

Lemma all_parsed_true {L : Libs} (b : signup_body) :
  all_parsed b = true <->
  safeParse usernameSchema (username b) = true
  /\ safeParse emailSchema (email b) = true
  /\ is_string (password b) = true
  /\ is_string (city b) = true
  /\ is_string (country b) = true
  /\ is_string (street b) = true
  /\ is_string (pincode b) = true.
Proof.
  unfold all_parsed, some_field_failed, passwordSchema, citySchema,
    countrySchema, streetSchema, pincodeSchema.
  rewrite (safeParse_plain (password b)), (safeParse_plain (city b)),
    (safeParse_plain (country b)), (safeParse_plain (street b)),
    (safeParse_plain (pincode b)).
  destruct (safeParse usernameSchema (username b)),
    (safeParse emailSchema (email b)),
    (is_string (password b)), (is_string (city b)), (is_string (country b)),
    (is_string (street b)), (is_string (pincode b)); simpl;
    intuition (discriminate || auto).
Qed.





(** * The store *)

Ltac split_matches :=
  repeat match goal with
         | H : context [match ?x with _ => _ end] |- _ =>
             destruct x eqn:?; try discriminate
         end.

Lemma text_in_inv (v o : option string) :
  text_in v = inr o ->
  o = v /\ match v with Some s => has_nul s = false | None => True end.
Proof.
  unfold text_in. destruct v as [s|]; [|intros H; now inversion H].
  destruct (has_nul s); [discriminate|]. intros H. now inversion H.
Qed.

Lemma users_columns_inv (u e p u' e' p' : option string) :
  users_columns u e p = inr (u', e', p') ->
  text_in u = inr u /\ text_in e = inr e /\ text_in p = inr p
  /\ varchar 50 u = inr u' /\ varchar 50 e = inr e' /\ varchar 100 p = inr p'.
Proof.
  unfold users_columns, sql_bind. intros H.
  destruct (text_in u) as [|u0] eqn:Hu; [discriminate|].
  destruct (text_in e) as [|e0] eqn:He; [discriminate|].
  destruct (text_in p) as [|p0] eqn:Hp; [discriminate|].
  destruct (text_in_inv _ _ Hu) as [-> _].
  destruct (text_in_inv _ _ He) as [-> _].
  destruct (text_in_inv _ _ Hp) as [-> _].
  destruct (varchar 50 u) as [|u1]; [discriminate|].
  destruct (varchar 50 e) as [|e1]; [discriminate|].
  destruct (varchar 100 p) as [|p1]; [discriminate|].
  inversion H; subst. repeat split; reflexivity.
Qed.

Lemma addresses_columns_inv (c k s z c' k' s' z' : option string) :
  addresses_columns c k s z = inr (c', k', s', z') ->
  text_in c = inr c /\ text_in k = inr k /\ text_in s = inr s
  /\ text_in z = inr z
  /\ varchar 100 c = inr c' /\ varchar 100 k = inr k'
  /\ varchar 100 s = inr s' /\ varchar 20 z = inr z'.
Proof.
  unfold addresses_columns, sql_bind. intros H.
  destruct (text_in c) as [|c0] eqn:Hc; [discriminate|].
  destruct (text_in k) as [|k0] eqn:Hk; [discriminate|].
  destruct (text_in s) as [|s0] eqn:Hs; [discriminate|].
  destruct (text_in z) as [|z0] eqn:Hz; [discriminate|].
  destruct (text_in_inv _ _ Hc) as [-> _].
  destruct (text_in_inv _ _ Hk) as [-> _].
  destruct (text_in_inv _ _ Hs) as [-> _].
  destruct (text_in_inv _ _ Hz) as [-> _].
  destruct (varchar 100 c) as [|c1]; [discriminate|].
  destruct (varchar 100 k) as [|k1]; [discriminate|].
  destruct (varchar 100 s) as [|s1]; [discriminate|].
  destruct (varchar 20 z) as [|z1]; [discriminate|].
  inversion H; subst. repeat split; reflexivity.
Qed.

Lemma new_user_inv (id : Z) (u e p : option string) (t : tables) (r : user_row) :
  new_user id u e p t = inr r ->
  u_id r = id
  /\ varchar 50 u = inr (Some (u_username r))
  /\ varchar 50 e = inr (Some (u_email r))
  /\ varchar 100 p = inr (Some (u_password r))
  /\ existsb (fun x => (u_id x =? id)%Z) (users t) = false.
Proof.
  unfold new_user. intros H.
  destruct (users_columns u e p) as [err | [[u' e'] p']] eqn:Hcols;
    [discriminate H|].
  apply users_columns_inv in Hcols. destruct Hcols as (_ & _ & _ & Hu & He & Hp).
  unfold users_row, sql_bind, not_null, unique in H.
  split_matches. inversion H; subst; clear H. simpl.
  repeat split; congruence.
Qed.

Lemma new_address_inv (id uid : Z) (c k s z : option string) (t : tables)
    (r : address_row) :
  new_address id uid c k s z t = inr r ->
  a_id r = id /\ a_user_id r = uid
  /\ varchar 100 c = inr (Some (a_city r))
  /\ varchar 100 k = inr (Some (a_country r))
  /\ varchar 100 s = inr (Some (a_street r))
  /\ varchar 20 z = inr (a_pincode r)
  /\ existsb (fun x => (u_id x =? uid)%Z) (users t) = true.
Proof.
  unfold new_address. intros H.
  destruct (addresses_columns c k s z) as [err | [[[c' k'] s'] z']] eqn:Hcols;
    [discriminate H|].
  apply addresses_columns_inv in Hcols.
  destruct Hcols as (_ & _ & _ & _ & Hc & Hk & Hs & Hz).
  unfold addresses_row, sql_bind, not_null, unique in H.
  split_matches. inversion H; subst; clear H. simpl.
  repeat split; congruence.
Qed.

Lemma new_user_by_columns (u e p : option string) :
  match users_columns u e p with
  | inl err => forall id t, new_user id u e p t = inl err
  | inr columns => forall id t, new_user id u e p t = users_row id columns t
  end.
Proof.
  unfold new_user. destruct (users_columns u e p); reflexivity.
Qed.

Lemma new_address_by_columns (c k s z : option string) :
  match addresses_columns c k s z with
  | inl err => forall id uid t, new_address id uid c k s z t = inl err
  | inr columns =>
      forall id uid t,
        new_address id uid c k s z t = addresses_row id uid columns t
  end.
Proof.
  unfold new_address. destruct (addresses_columns c k s z); reflexivity.
Qed.

Section StoreFacts.
Context {L : Libs}.

Lemma run_INSERT_users (d : database) (u e p : option string) :
  match run (INSERT_users u e p) d with
  | (inl _, d') => current d' = current d /\ txn d' = txn d
  | (inr rows, d') =>
      exists r,
        rows = [RId (u_id r)]
        /\ u_id r = (users_id_seq d + 1)%Z
        /\ new_user (u_id r) u e p (current d) = inr r
        /\ current d' = {| users := users (current d) ++ [r];
                           addresses := addresses (current d) |}
        /\ txn d' = txn d
  end.
Proof.
  unfold run, nextval. pose proof (new_user_by_columns u e p) as Hcols.
  destruct (users_columns u e p) as [err | columns]; [now split|].
  destruct (users_id_seq d <? 2147483647)%Z; [|now split].
  rewrite <- Hcols.
  destruct (new_user _ u e p (current d)) as [err | r] eqn:E; [now split|].
  exists r. destruct (new_user_inv _ _ _ _ _ _ E) as [Hid _].
  rewrite Hid. repeat split; assumption || reflexivity.
Qed.

Lemma run_INSERT_addresses (d : database) (uid : Z) (c k s z : option string) :
  match run (INSERT_addresses uid c k s z) d with
  | (inl _, d') => current d' = current d /\ txn d' = txn d
  | (inr rows, d') =>
      exists r,
        a_user_id r = uid
        /\ new_address (a_id r) uid c k s z (current d) = inr r
        /\ current d' = {| users := users (current d);
                           addresses := addresses (current d) ++ [r] |}
        /\ txn d' = txn d
  end.
Proof.
  unfold run, nextval. pose proof (new_address_by_columns c k s z) as Hcols.
  destruct (addresses_columns c k s z) as [err | columns]; [now split|].
  destruct (addresses_id_seq d <? 2147483647)%Z; [|now split].
  rewrite <- Hcols.
  destruct (new_address _ uid c k s z (current d)) as [err | r] eqn:E; [now split|].
  exists r. destruct (new_address_inv _ _ _ _ _ _ _ _ E) as (Hid & Huid & _).
  rewrite Hid. repeat split; assumption || reflexivity.
Qed.
End StoreFacts.

(** * The signup handler, path by path *)

Section SignupPaths.
Context {L : Libs}.

Local Arguments run : simpl never.
Local Arguments exec : simpl never.

Lemma exec_ROLLBACK (d : database) :
  fst (exec ROLLBACK d) = inr []
  /\ txn (snd (exec ROLLBACK d)) = Idle
  /\ current (snd (exec ROLLBACK d)) = committed d
  /\ users_id_seq (snd (exec ROLLBACK d)) = users_id_seq d
  /\ addresses_id_seq (snd (exec ROLLBACK d)) = addresses_id_seq d.
Proof.
  unfold exec, committed. destruct (txn d) eqn:E; simpl; rewrite ?E; auto.
Qed.

(** The [catch] block: ROLLBACK, the log line, then the 500 response,
    which goes out only if nothing was sent before. *)
Lemma signup_catch_run (error : exn) (w : world) :
  signup_catch error w =
  (match sent w with
   | None => Returned tt
   | Some _ => Thrown HeadersSent
   end,
   {| store := snd (exec ROLLBACK (store w));
      salts := salts w;
      sent := match sent w with
              | None => Some (500%Z, message "Error Inserting Data")
              | Some r => Some r
              end;
      trace := trace w ++ catch_calls error |}).
Proof.
  unfold signup_catch, query, console_error, json, emit, bind, catch_calls.
  cbn [store salts sent trace].
  pose proof (exec_ROLLBACK (store w)) as [Hr _].
  destruct (exec ROLLBACK (store w)) as [r d'].
  cbn [fst snd] in *. subst r. cbn [store salts sent trace].
  destruct (sent w); cbn [store salts sent trace];
    rewrite <- ?app_assoc; reflexivity.
Qed.

Lemma bind_query {A : Type} (q : statement) (k : list row -> js A) (w : world) :
  bind (query q) k w =
  match exec q (store w) with
  | (inl e, d') => (Thrown (DatabaseError e), stored d' (logged (Query q) w))
  | (inr rows, d') => k rows (stored d' (logged (Query q) w))
  end.
Proof.
  unfold query, emit, bind, stored, logged. simpl.
  destruct (exec q (store w)) as [[e | rows] d']; reflexivity.
Qed.

Lemma bind_console_log {A : Type} (text : string) (k : unit -> js A) (w : world) :
  bind (console_log text) k w = k tt (logged (ConsoleLog text) w).
Proof. reflexivity. Qed.

Lemma bind_bcrypt_hash {A : Type} (data : jsval) (k : string -> js A) (w : world) :
  bind (bcrypt_hash data saltRounds) k w =
  match data with
  | JString s =>
      k (bcrypt_digest s saltRounds (salts w))
        {| store := store w; salts := S (salts w); sent := sent w;
           trace := trace w ++ [Hash data saltRounds] |}
  | _ => (Thrown BcryptError, logged (Hash data saltRounds) w)
  end.
Proof. destruct data; reflexivity. Qed.

Lemma json_run (status : Z) (b : body) (w : world) :
  json status b w =
  match sent w with
  | Some _ => (Thrown HeadersSent, logged (Json status b) w)
  | None => (Returned tt,
             {| store := store w; salts := salts w; sent := Some (status, b);
                trace := trace w ++ [Json status b] |})
  end.
Proof. unfold json, bind, emit, logged. cbn. destruct (sent w); reflexivity. Qed.

Lemma exec_BEGIN_idle (d : database) :
  txn d = Idle -> exec BEGIN d = (inr [], begun d).
Proof. unfold exec, begun. now intros ->. Qed.

Lemma exec_in_transaction (q : statement) (d : database) (saved : tables) :
  txn d = InTransaction saved ->
  match q with BEGIN | COMMIT | ROLLBACK => False | _ => True end ->
  exec q d =
  match run q d with
  | (inl e, d') => (inl e, with_txn (Aborted saved) d')
  | (inr rows, d') => (inr rows, d')
  end.
Proof. unfold exec. intros -> Hq. destruct q; (contradiction || reflexivity). Qed.

Lemma exec_idle (q : statement) (d : database) :
  txn d = Idle ->
  match q with BEGIN | COMMIT | ROLLBACK => False | _ => True end ->
  exec q d = run q d.
Proof. unfold exec. intros -> Hq. destruct q; (contradiction || reflexivity). Qed.

Lemma exec_COMMIT_in_transaction (d : database) (saved : tables) :
  txn d = InTransaction saved -> exec COMMIT d = (inr [], with_txn Idle d).
Proof. unfold exec. now intros ->. Qed.

Lemma signup_try_cases (b : signup_body) (d : database) (n : nat) :
  txn d = Idle ->
  (* bcrypt rejects the password *)
  (is_string (password b) = false
   /\ signup_try b (arrival d n) =
      (Thrown BcryptError,
       {| store := d; salts := n; sent := first_response b;
          trace := rejection b ++ [Hash (password b) saltRounds] |}))
  \/ exists s,
      password b = JString s
      /\ let q1 := users_statement b (bcrypt_digest s saltRounds n) in
         (* the INSERT into users is rejected *)
         (exists e d1,
             run q1 (begun d) = (inl e, d1)
             /\ signup_try b (arrival d n) =
                (Thrown (DatabaseError e),
                 {| store := with_txn (Aborted (current d)) d1;
                    salts := S n; sent := first_response b;
                    trace := rejection b
                             ++ [Hash (password b) saltRounds; Query BEGIN;
                                 Query q1] |}))
         \/ exists r d1,
             run q1 (begun d) = (inr [RId (u_id r)], d1)
             /\ u_id r = (users_id_seq d + 1)%Z
             /\ new_user (u_id r) (prepareValue (username b))
                         (prepareValue (email b))
                         (Some (bcrypt_digest s saltRounds n)) (current d)
                = inr r
             /\ current d1 = {| users := users (current d) ++ [r];
                                addresses := addresses (current d) |}
             /\ let q2 := addresses_statement b (u_id r) in
                let calls :=
                  rejection b
                  ++ [Hash (password b) saltRounds; Query BEGIN; Query q1;
                      ConsoleLog "Inserted Data Successfully into 'users' table";
                      Query q2] in
                (* the INSERT into addresses is rejected *)
                (exists e d2,
                    run q2 d1 = (inl e, d2)
                    /\ signup_try b (arrival d n) =
                       (Thrown (DatabaseError e),
                        {| store := with_txn (Aborted (current d)) d2;
                           salts := S n; sent := first_response b;
                           trace := calls |}))
                (* both rows are committed *)
                \/ exists rows d2 a,
                    run q2 d1 = (inr rows, d2)
                    /\ a_user_id a = u_id r
                    /\ current d2
                       = {| users := users (current d) ++ [r];
                            addresses := addresses (current d) ++ [a] |}
                    /\ signup_try b (arrival d n) =
                       ((if all_parsed b then Returned tt
                         else Thrown HeadersSent),
                        {| store := with_txn Idle d2;
                           salts := S n;
                           sent := (if all_parsed b
                                    then Some (201%Z,
                                               message "Data Inserted Successfully")
                                    else first_response b);
                           trace :=
                             calls
                             ++ [ConsoleLog
                                   "Inserted Data Successfully into 'addresses' table";
                                 Query COMMIT;
                                 Json 201 (message "Data Inserted Successfully")] |}).
Proof.
  intros Hidle.
  remember (signup_try b (arrival d n)) as res eqn:Hres.
  assert (Hstart :
    (if some_field_failed b then json 401 (message "Invalid Entry") else ret tt)
      (arrival d n)
    = (Returned tt, {| store := d; salts := n; sent := first_response b;
                       trace := rejection b |})).
  { unfold first_response, rejection, all_parsed.
    destruct (some_field_failed b); reflexivity. }
  unfold signup_try in Hres. unfold bind at 1 in Hres.
  rewrite Hstart in Hres. clear Hstart.
  rewrite bind_bcrypt_hash in Hres. cbn [store salts sent trace] in Hres.
  destruct (password b) as [| | | |s| |] eqn:Hp;
    try (left; split; [reflexivity|exact Hres]).
  right. exists s. split; [reflexivity|]. cbv zeta.
  rewrite bind_query in Hres. cbn [store salts sent trace] in Hres.
  rewrite (exec_BEGIN_idle d Hidle) in Hres.
  rewrite bind_query in Hres. unfold stored, logged in Hres.
  cbn [store salts sent trace] in Hres.
  fold (users_statement b (bcrypt_digest s saltRounds n)) in Hres.
  set (q1 := users_statement b (bcrypt_digest s saltRounds n)) in *.
  rewrite (exec_in_transaction q1 (begun d) (current d) eq_refl I) in Hres.
  pose proof (run_INSERT_users (begun d) (prepareValue (username b))
                (prepareValue (email b))
                (prepareValue (JString (bcrypt_digest s saltRounds n)))) as H1.
  fold (users_statement b (bcrypt_digest s saltRounds n)) in H1. fold q1 in H1.
  destruct (run q1 (begun d)) as [[e | rows] d1] eqn:E1.
  - left. exists e, d1. split; [reflexivity|].
    rewrite Hres, <- !app_assoc. reflexivity.
  - right. destruct H1 as (r & -> & Hid & Hnew & Hcur & Htxn).
    exists r, d1. split; [reflexivity|].
    split; [exact Hid|]. split; [exact Hnew|]. split; [exact Hcur|]. cbv zeta.
    rewrite bind_console_log in Hres. unfold bind at 1 in Hres.
    cbn [first_id ret] in Hres.
    rewrite bind_query in Hres. unfold stored, logged in Hres.
    cbn [store salts sent trace] in Hres.
    fold (addresses_statement b (u_id r)) in Hres.
    set (q2 := addresses_statement b (u_id r)) in *.
    rewrite (exec_in_transaction q2 d1 (current d) Htxn I) in Hres.
    pose proof (run_INSERT_addresses d1 (u_id r) (prepareValue (city b))
                  (prepareValue (country b)) (prepareValue (street b))
                  (prepareValue (pincode b))) as H2.
    fold (addresses_statement b (u_id r)) in H2. fold q2 in H2.
    destruct (run q2 d1) as [[e | rows] d2] eqn:E2.
    + left. exists e, d2. split; [reflexivity|].
      rewrite Hres, <- !app_assoc. reflexivity.
    + right. destruct H2 as (a & Huid & Hnewa & Hcura & Htxna).
      exists rows, d2, a. split; [reflexivity|].
      split; [exact Huid|].
      split; [rewrite Hcura, Hcur; reflexivity|].
      rewrite bind_console_log, bind_query in Hres.
      unfold stored, logged in Hres. cbn [store salts sent trace] in Hres.
      rewrite (exec_COMMIT_in_transaction d2 (current d)) in Hres
        by (rewrite Htxna, Htxn; reflexivity).
      rewrite json_run in Hres. cbn [store salts sent trace] in Hres.
      rewrite Hres. unfold first_response, logged.
      destruct (all_parsed b); cbn [store salts sent trace];
        rewrite <- !app_assoc; reflexivity.
Qed.

Lemma signup_try_not_string (b : signup_body) (d : database) (n : nat) :
  is_string (password b) = false ->
  signup_try b (arrival d n) =
  (Thrown BcryptError,
   {| store := d; salts := n; sent := first_response b;
      trace := rejection b ++ [Hash (password b) saltRounds] |}).
Proof.
  intros Hp.
  destruct (signup_try b (arrival d n)) as [o w] eqn:Hres.
  assert (Hstart :
    (if some_field_failed b then json 401 (message "Invalid Entry") else ret tt)
      (arrival d n)
    = (Returned tt, {| store := d; salts := n; sent := first_response b;
                       trace := rejection b |})).
  { unfold first_response, rejection, all_parsed.
    destruct (some_field_failed b); reflexivity. }
  unfold signup_try in Hres. unfold bind at 1 in Hres.
  rewrite Hstart in Hres. rewrite bind_bcrypt_hash in Hres.
  destruct (password b); try discriminate Hp; rewrite <- Hres; reflexivity.
Qed.

(** ** Every call is recorded after the calls before it *)

Lemma extends_ret {A : Type} (a : A) : extends (ret a).
Proof. intros w. exists []. simpl. now rewrite app_nil_r. Qed.

Lemma extends_throw {A : Type} (e : exn) : extends (@throw A e).
Proof. intros w. exists []. simpl. now rewrite app_nil_r. Qed.

Lemma extends_bind {A B : Type} (m : js A) (k : A -> js B) :
  extends m -> (forall a, extends (k a)) -> extends (bind m k).
Proof.
  intros Hm Hk w. unfold bind.
  destruct (Hm w) as [c1 H1]. destruct (m w) as [[a | e] w1]; simpl in H1.
  - destruct (Hk a w1) as [c2 H2]. exists (c1 ++ c2).
    now rewrite H2, H1, app_assoc.
  - now exists c1.
Qed.

Lemma extends_try_catch {A : Type} (m : js A) (h : exn -> js A) :
  extends m -> (forall e, extends (h e)) -> extends (try_catch m h).
Proof.
  intros Hm Hh w. unfold try_catch.
  destruct (Hm w) as [c1 H1]. destruct (m w) as [[a | e] w1]; simpl in H1.
  - now exists c1.
  - destruct (Hh e w1) as [c2 H2]. exists (c1 ++ c2).
    now rewrite H2, H1, app_assoc.
Qed.

Lemma extends_emit (e : event) : extends (emit e).
Proof. intros w. now exists [e]. Qed.

Lemma extends_json (status : Z) (b : body) : extends (json status b).
Proof.
  intros w. exists [Json status b]. rewrite json_run.
  destruct (sent w); reflexivity.
Qed.

Lemma extends_query (q : statement) : extends (query q).
Proof.
  intros w. exists [Query q].
  assert (H : query q w = bind (query q) ret w).
  { unfold bind. destruct (query q w) as [[rows | e] w']; reflexivity. }
  rewrite H, bind_query.
  destruct (exec q (store w)) as [[e | rows] d']; reflexivity.
Qed.

Lemma extends_bcrypt_hash (data : jsval) : extends (bcrypt_hash data saltRounds).
Proof.
  intros w. exists [Hash data saltRounds].
  assert (H : bcrypt_hash data saltRounds w
              = bind (bcrypt_hash data saltRounds) ret w).
  { unfold bind. destruct (bcrypt_hash data saltRounds w) as [[h | e] w'];
      reflexivity. }
  rewrite H, bind_bcrypt_hash. destruct data; reflexivity.
Qed.

Lemma extends_first_id (rows : list row) : extends (first_id rows).
Proof.
  destruct rows as [|[ | | | ] rest]; simpl;
    auto using extends_ret, extends_throw.
Qed.

Lemma extends_console_log (text : string) : extends (console_log text).
Proof. apply extends_emit. Qed.

Lemma extends_console_error (text : string) (error : exn) :
  extends (console_error text error).
Proof. apply extends_emit. Qed.

Create HintDb calls.
#[local] Hint Resolve extends_ret extends_throw extends_emit extends_json
  extends_query extends_bcrypt_hash extends_first_id extends_console_log
  extends_console_error : calls.

Ltac prove_extends :=
  repeat (cbv beta;
          first [ solve [auto with calls]
                | apply extends_try_catch; [|intro]
                | apply extends_bind; [|intro] ]).

Lemma extends_signup_catch (error : exn) : extends (signup_catch error).
Proof. unfold signup_catch. prove_extends. Qed.

(** C8. On every signup request [bcrypt.hash] is called on the password with
    the cost 10: it is the first call after the validation, and it is made as
    well when the validation has failed and the 401 has been sent. *)
Theorem signup_always_hashes :
  forall (b : signup_body) (d : database) (n : nat),
    exists rest,
      trace (served (signup b) d n)
      = rejection b ++ Hash (password b) saltRounds :: rest.
Proof.
  intros b d n. unfold served, signup, try_catch.
  destruct (is_string (password b)) eqn:Hp.
  - destruct (password b) as [| | | |s| |] eqn:Hs; try discriminate Hp.
    assert (Hrest : forall h w, exists calls,
      trace (snd (try_catch
        (query BEGIN ;;
         usersRes <- query (INSERT_users (prepareValue (username b))
                                         (prepareValue (email b))
                                         (prepareValue (JString h))) ;;
         console_log "Inserted Data Successfully into 'users' table" ;;
         userId <- first_id usersRes ;;
         query (INSERT_addresses userId (prepareValue (city b))
                                 (prepareValue (country b))
                                 (prepareValue (street b))
                                 (prepareValue (pincode b))) ;;
         console_log "Inserted Data Successfully into 'addresses' table" ;;
         query COMMIT ;;
         json 201 (message "Data Inserted Successfully"))%js
        signup_catch w)) = trace w ++ calls).
    { intros h. change (extends (try_catch
        (query BEGIN ;;
         usersRes <- query (INSERT_users (prepareValue (username b))
                                         (prepareValue (email b))
                                         (prepareValue (JString h))) ;;
         console_log "Inserted Data Successfully into 'users' table" ;;
         userId <- first_id usersRes ;;
         query (INSERT_addresses userId (prepareValue (city b))
                                 (prepareValue (country b))
                                 (prepareValue (street b))
                                 (prepareValue (pincode b))) ;;
         console_log "Inserted Data Successfully into 'addresses' table" ;;
         query COMMIT ;;
         json 201 (message "Data Inserted Successfully"))%js
        signup_catch)).
      apply extends_try_catch; [|apply extends_signup_catch].
      prove_extends. }
    assert (Hstart :
      (if some_field_failed b then json 401 (message "Invalid Entry") else ret tt)
        (arrival d n)
      = (Returned tt, {| store := d; salts := n; sent := first_response b;
                         trace := rejection b |})).
    { unfold first_response, rejection, all_parsed.
    destruct (some_field_failed b); reflexivity. }
    unfold signup_try. unfold bind at 1. rewrite Hstart.
    rewrite bind_bcrypt_hash, Hs. cbn [store salts sent trace].
    destruct (Hrest (bcrypt_digest s saltRounds n)
                {| store := d; salts := S n; sent := first_response b;
                   trace := rejection b ++ [Hash (JString s) saltRounds] |})
      as [calls Hcalls].
    unfold try_catch in Hcalls. exists calls.
    rewrite Hcalls. cbn [trace]. now rewrite <- app_assoc.
  - rewrite (signup_try_not_string b d n Hp), signup_catch_run.
    cbn [store salts sent trace]. eexists. now rewrite <- app_assoc.
Qed.

Lemma signup_thrown (b : signup_body) (d : database) (n : nat) (e : exn)
    (w1 : world) :
  signup_try b (arrival d n) = (Thrown e, w1) ->
  served (signup b) d n =
  {| store := snd (exec ROLLBACK (store w1));
     salts := salts w1;
     sent := match sent w1 with
             | None => Some (500%Z, message "Error Inserting Data")
             | Some r => Some r
             end;
     trace := trace w1 ++ catch_calls e |}.
Proof.
  intros H. unfold served, signup, try_catch. rewrite H, signup_catch_run.
  reflexivity.
Qed.

Lemma signup_returned (b : signup_body) (d : database) (n : nat) (w1 : world) :
  signup_try b (arrival d n) = (Returned tt, w1) ->
  served (signup b) d n = w1.
Proof.
  intros H. unfold served, signup, try_catch. now rewrite H.
Qed.

(** Whatever the [try] block of the signup handler throws, and wherever,
    the [catch] block sends ROLLBACK, which the server accepts, logs the
    error and calls [res.status(500).json] with the generic message, the
    response of the request only when none was sent before. When the
    password is not a string it is [bcrypt.hash] that throws, before any
    BEGIN: the ROLLBACK then runs on a session with no open transaction. *)
Lemma catch_always_rolls_back :
  forall (b : signup_body) (d : database) (n : nat) (e : exn) (w1 : world),
    txn d = Idle ->
    signup_try b (arrival d n) = (Thrown e, w1) ->
    trace (served (signup b) d n)
    = trace w1
      ++ [Query ROLLBACK;
          ConsoleError "Error during transaction, rolled back." e;
          Json 500 (message "Error Inserting Data")]
    /\ fst (exec ROLLBACK (store w1)) = inr []
    /\ store (served (signup b) d n) = snd (exec ROLLBACK (store w1))
    /\ sent (served (signup b) d n)
       = match sent w1 with
         | None => Some (500%Z, message "Error Inserting Data")
         | Some r => Some r
         end
    /\ (is_string (password b) = true
        \/ (e = BcryptError
            /\ txn (store w1) = Idle
            /\ ~ In (Query BEGIN) (trace w1))).
Proof.
  intros b d n e w1 Hidle Htry.
  rewrite (signup_thrown b d n e w1 Htry). cbn [store salts sent trace].
  repeat split; try reflexivity.
  - apply exec_ROLLBACK.
  - destruct (is_string (password b)) eqn:Hp; [now left | right].
    rewrite (signup_try_not_string b d n Hp) in Htry.
    inversion Htry; subst; clear Htry. cbn [store trace].
    repeat split; [exact Hidle|].
    intros Hin. apply in_app_or in Hin. destruct Hin as [Hin | Hin].
    + unfold rejection, invalid_entry in Hin.
      destruct (all_parsed b); simpl in Hin; [contradiction|].
      destruct Hin as [Hin | []]. discriminate Hin.
    + destruct Hin as [Hin | []]. discriminate Hin.
Qed.
End SignupPaths.

Section SignupOutcomes.
Context {L : Libs}.

Local Arguments run : simpl never.
Local Arguments exec : simpl never.

Lemma invalid_first_response (b : signup_body) :
  all_parsed b = false ->
  first_response b = Some (401%Z, message "Invalid Entry")
  /\ rejection b = [invalid_entry].
Proof. unfold first_response, rejection. now intros ->. Qed.

Lemma valid_first_response (b : signup_body) :
  all_parsed b = true -> first_response b = None /\ rejection b = [].
Proof. unfold first_response, rejection. now intros ->. Qed.

Lemma committed_after_rollback (d : database) :
  committed (snd (exec ROLLBACK d)) = committed d.
Proof.
  destruct (exec_ROLLBACK d) as (_ & Htxn & Hcur & _).
  unfold committed at 1. now rewrite Htxn.
Qed.

(** The signup of a request whose fields all parsed, when something throws:
    it is one of the two INSERTs, the tables are as before, and the client
    receives the generic 500. *)
Lemma valid_signup_failure (b : signup_body) (d : database) (n : nat) (e : exn)
    (w1 : world) :
  txn d = Idle ->
  all_parsed b = true ->
  signup_try b (arrival d n) = (Thrown e, w1) ->
  responds (served (signup b) d n) 500 "Error Inserting Data"
  /\ committed (store (served (signup b) d n)) = current d
  /\ txn (store (served (signup b) d n)) = Idle
  /\ In (Query ROLLBACK) (trace (served (signup b) d n))
  /\ exists err, e = DatabaseError err.
Proof.
  intros Hidle Hvalid Htry.
  rewrite (signup_thrown b d n e w1 Htry). unfold responds.
  cbn [store salts sent trace].
  rewrite committed_after_rollback.
  destruct (exec_ROLLBACK (store w1)) as (_ & Htxn & _).
  destruct (valid_first_response b Hvalid) as [Hfirst Hrej].
  assert (Hin : In (Query ROLLBACK) (trace w1 ++ catch_calls e)).
  { apply in_or_app. right. now left. }
  pose proof (proj1 (all_parsed_true b) Hvalid) as (_ & _ & Hp & _).
  destruct (signup_try_cases b d n Hidle) as [[Hnot _] | (s & Hs & Hcases)];
    [congruence|].
  cbv zeta in Hcases.
  destruct Hcases as [(err & d1 & Hrun & Heq) | (r & d1 & Hrun & _ & _ & _ & Hcases)].
  - rewrite Heq in Htry. inversion Htry; subst; clear Htry.
    cbn [store salts sent trace] in *. rewrite Hfirst.
    repeat split; eauto.
  - destruct Hcases as [(err & d2 & Hrun2 & Heq) | (rows & d2 & a & Hrun2 & _ & _ & Heq)].
    + rewrite Heq in Htry. inversion Htry; subst; clear Htry.
      cbn [store salts sent trace] in *. rewrite Hfirst.
      repeat split; eauto.
    + rewrite Heq, Hvalid in Htry. discriminate Htry.
Qed.

(** Once the 401 has gone out it is the response of the request, whatever
    the handler does next. *)
Lemma invalid_signup_responds_401 (b : signup_body) (d : database) (n : nat) :
  txn d = Idle ->
  all_parsed b = false ->
  responds (served (signup b) d n) 401 "Invalid Entry".
Proof.
  intros Hidle Hinvalid. unfold responds.
  destruct (invalid_first_response b Hinvalid) as [Hfirst _].
  destruct (signup_try b (arrival d n)) as [[[] | e] w1] eqn:Htry.
  - exfalso.
    destruct (signup_try_cases b d n Hidle) as [[_ Heq] | (s & _ & Hcases)];
      [congruence|].
    cbv zeta in Hcases.
    destruct Hcases as [(err & d1 & _ & Heq) | (r & d1 & _ & _ & _ & _ & Hcases)];
      [congruence|].
    destruct Hcases as [(err & d2 & _ & Heq) | (rows & d2 & a & _ & _ & _ & Heq)];
      [congruence|].
    rewrite Heq, Hinvalid in Htry. discriminate Htry.
  - rewrite (signup_thrown b d n e w1 Htry). cbn [sent].
    assert (Hsent : sent w1 = first_response b).
    { destruct (signup_try_cases b d n Hidle) as [[_ Heq] | (s & _ & Hcases)].
      - rewrite Heq in Htry. now inversion Htry.
      - cbv zeta in Hcases.
        destruct Hcases as [(err & d1 & _ & Heq) | (r & d1 & _ & _ & _ & _ & Hcases)].
        + rewrite Heq in Htry. now inversion Htry.
        + destruct Hcases as [(err & d2 & _ & Heq) | (rows & d2 & a & _ & _ & _ & Heq)];
            rewrite Heq in Htry; [now inversion Htry|].
          rewrite Hinvalid in Htry. now inversion Htry. }
    now rewrite Hsent, Hfirst.
Qed.

Lemma varchar_short (n : nat) (s : string) :
  String.length s <= n -> varchar n (Some s) = inr (Some s).
Proof.
  intros H. unfold varchar.
  assert (Hsplit : forall t m, String.length t <= m -> split_chars m t = (t, "")).
  { induction t as [|c t IH]; intros m Hm; [reflexivity|].
    simpl in Hm. cbn [split_chars]. destruct (continuation c).
    - rewrite (IH m) by lia. reflexivity.
    - destruct m as [|m']; [lia|]. rewrite (IH m') by lia. reflexivity. }
  now rewrite (Hsplit s n H).
Qed.

(** C2. When the signup handler has answered 201, every field of the
    payload parsed, and the tables as committed are the tables of before with
    one more user row and one more address row; the address row's user_id is
    the id of the user row, which is the value the sequence of users.id gave
    out. *)
Theorem signup_success_writes_both_rows :
  forall (b : signup_body) (d : database) (n : nat),
    txn d = Idle ->
    responds (served (signup b) d n) 201 "Data Inserted Successfully" ->
    all_parsed b = true
    /\ exists u a,
        users (committed (store (served (signup b) d n)))
        = users (current d) ++ [u]
        /\ addresses (committed (store (served (signup b) d n)))
           = addresses (current d) ++ [a]
        /\ a_user_id a = u_id u
        /\ u_id u = (users_id_seq d + 1)%Z
        /\ username b = JString (u_username u)
        /\ txn (store (served (signup b) d n)) = Idle.
Proof.
  intros b d n Hidle H201.
  destruct (all_parsed b) eqn:Hvalid.
  2:{ pose proof (invalid_signup_responds_401 b d n Hidle Hvalid) as H401.
      unfold responds in *. rewrite H401 in H201. discriminate H201. }
  split; [reflexivity|].
  destruct (signup_try b (arrival d n)) as [[[] | e] w1] eqn:Htry.
  2:{ destruct (valid_signup_failure b d n e w1 Hidle Hvalid Htry) as [H500 _].
      unfold responds in *. rewrite H500 in H201. discriminate H201. }
  rewrite (signup_returned b d n w1 Htry).
  destruct (signup_try_cases b d n Hidle) as [[_ Heq] | (s & Hs & Hcases)];
    [congruence|].
  cbv zeta in Hcases.
  destruct Hcases
    as [(err & d1 & _ & Heq) | (r & d1 & _ & Hid & Hnew & _ & Hcases)];
    [congruence|].
  destruct Hcases
    as [(err & d2 & _ & Heq) | (rows & d2 & a & _ & Huid & Hcur2 & Heq)];
    [congruence|].
  rewrite Heq in Htry. inversion Htry; subst w1; clear Htry.
  cbn [store]. unfold committed. cbn [txn current with_txn].
  exists r, a. rewrite Hcur2. cbn [users addresses].
  repeat split; try assumption.
  destruct (proj1 (all_parsed_true b) Hvalid) as (Hu & _).
  destruct (proj1 (usernameSchema_rule (username b)) Hu)
    as (name & Hname & Hlen & _).
  rewrite Hname in *. cbn [prepareValue] in Hnew.
  destruct (new_user_inv _ _ _ _ _ _ Hnew) as (_ & Hvar & _).
  rewrite varchar_short in Hvar by lia. now inversion Hvar.
Qed.

Lemma exec_accepted_in_transaction (q : statement) (d d' : database)
    (saved : tables) (rows : list row) :
  txn d = InTransaction saved ->
  match q with BEGIN | COMMIT | ROLLBACK => False | _ => True end ->
  exec q d = (inr rows, d') ->
  run q d = (inr rows, d').
Proof.
  intros Htxn Hq H. rewrite (exec_in_transaction q d saved Htxn Hq) in H.
  destruct (run q d) as [[e | rows'] d'']; [discriminate H | exact H].
Qed.

(** C9, as the code has it. The handler does not return after the 401: on
    every request with an invalid field it goes on to call [bcrypt.hash].
    When the password is a string it then sends BEGIN and the INSERT into
    users; when the server accepts that INSERT it sends the INSERT into
    addresses; and when the server accepts both, a user row and an address row
    are committed, although the client was told 401. *)
Theorem invalid_request_goes_on :
  forall (b : signup_body) (d : database) (n : nat),
    txn d = Idle ->
    all_parsed b = false ->
    responds (served (signup b) d n) 401 "Invalid Entry"
    /\ (exists rest,
          trace (served (signup b) d n)
          = invalid_entry :: Hash (password b) saltRounds :: rest)
    /\ (forall s,
          password b = JString s ->
          exists rest,
            trace (served (signup b) d n)
            = invalid_entry :: Hash (password b) saltRounds :: Query BEGIN
              :: Query (users_statement b (bcrypt_digest s saltRounds n))
              :: rest)
    /\ (forall s id d1,
          password b = JString s ->
          exec (users_statement b (bcrypt_digest s saltRounds n)) (begun d)
          = (inr [RId id], d1) ->
          exists rest,
            trace (served (signup b) d n)
            = invalid_entry :: Hash (password b) saltRounds :: Query BEGIN
              :: Query (users_statement b (bcrypt_digest s saltRounds n))
              :: ConsoleLog "Inserted Data Successfully into 'users' table"
              :: Query (addresses_statement b id) :: rest)
    /\ (forall s id d1 rows d2,
          password b = JString s ->
          exec (users_statement b (bcrypt_digest s saltRounds n)) (begun d)
          = (inr [RId id], d1) ->
          exec (addresses_statement b id) d1 = (inr rows, d2) ->
          exists u a,
            users (committed (store (served (signup b) d n)))
            = users (current d) ++ [u]
            /\ addresses (committed (store (served (signup b) d n)))
               = addresses (current d) ++ [a]
            /\ u_id u = id
            /\ a_user_id a = id).
Proof.
  intros b d n Hidle Hinvalid.
  split; [now apply invalid_signup_responds_401|].
  destruct (invalid_first_response b Hinvalid) as [Hfirst Hrej].
  destruct (signup_try_cases b d n Hidle) as [[Hnot Heq] | (s & Hs & Hcases)].
  { (* bcrypt rejects the password *)
    rewrite (signup_thrown b d n _ _ Heq). cbn [store salts sent trace].
    rewrite Hrej.
    split; [eexists; reflexivity|].
    repeat split; intros; rewrite H in Hnot; discriminate Hnot. }
  cbv zeta in Hcases.
  assert (Hq1 : forall s' id d1,
             password b = JString s' ->
             exec (users_statement b (bcrypt_digest s' saltRounds n)) (begun d)
             = (inr [RId id], d1) ->
             run (users_statement b (bcrypt_digest s saltRounds n)) (begun d)
             = (inr [RId id], d1)).
  { intros s' id d1 Hs' Hexec. rewrite Hs in Hs'. inversion Hs'; subst s'.
    exact (exec_accepted_in_transaction
             (users_statement b (bcrypt_digest s saltRounds n)) (begun d) d1
             (current d) [RId id] eq_refl I Hexec). }
  destruct Hcases
    as [(err & d1 & Hrun1 & Heq) | (r & d1 & Hrun1 & Hid & Hnew & Hcur1 & Hcases)].
  { (* the INSERT into users is rejected *)
    rewrite (signup_thrown b d n _ _ Heq). cbn [store salts sent trace].
    rewrite Hrej.
    split; [eexists; reflexivity|].
    split.
    { intros s' Hs'. rewrite Hs in Hs'. inversion Hs'; subst s'.
      eexists. reflexivity. }
    split.
    { intros s' id d1' Hs' Hexec. pose proof (Hq1 s' id d1' Hs' Hexec) as Hrun.
      rewrite Hrun1 in Hrun. discriminate Hrun. }
    intros s' id d1' rows d2 Hs' Hexec _.
    pose proof (Hq1 s' id d1' Hs' Hexec) as Hrun.
    rewrite Hrun1 in Hrun. discriminate Hrun. }
  assert (Htxn1 : txn d1 = InTransaction (current d)).
  { pose proof (run_INSERT_users (begun d) (prepareValue (username b))
                  (prepareValue (email b))
                  (prepareValue (JString (bcrypt_digest s saltRounds n)))) as H1.
    unfold users_statement in Hrun1. rewrite Hrun1 in H1.
    destruct H1 as (r' & _ & _ & _ & _ & Htxn). exact Htxn. }
  assert (Hq2 : forall s' id d1' rows d2,
             password b = JString s' ->
             exec (users_statement b (bcrypt_digest s' saltRounds n)) (begun d)
             = (inr [RId id], d1') ->
             exec (addresses_statement b id) d1' = (inr rows, d2) ->
             id = u_id r
             /\ run (addresses_statement b (u_id r)) d1 = (inr rows, d2)).
  { intros s' id d1' rows d2 Hs' Hexec Hexec2.
    pose proof (Hq1 s' id d1' Hs' Hexec) as Hrun.
    rewrite Hrun1 in Hrun. inversion Hrun; subst id d1'. split; [reflexivity|].
    exact (exec_accepted_in_transaction
             (addresses_statement b (u_id r)) d1 d2 (current d) rows Htxn1 I
             Hexec2). }
  destruct Hcases
    as [(err & d2 & Hrun2 & Heq) | (rows & d2 & a & Hrun2 & Huid & Hcur2 & Heq)].
  { (* the INSERT into addresses is rejected *)
    rewrite (signup_thrown b d n _ _ Heq). cbn [store salts sent trace].
    rewrite Hrej.
    split; [eexists; reflexivity|].
    split.
    { intros s' Hs'. rewrite Hs in Hs'. inversion Hs'; subst s'.
      eexists. reflexivity. }
    split.
    { intros s' id d1' Hs' Hexec. pose proof (Hq1 s' id d1' Hs' Hexec) as Hrun.
      rewrite Hrun1 in Hrun. inversion Hrun; subst id d1'.
      rewrite Hs in Hs'. inversion Hs'; subst s'. eexists. reflexivity. }
    intros s' id d1' rows d2' Hs' Hexec Hexec2.
    destruct (Hq2 s' id d1' rows d2' Hs' Hexec Hexec2) as [_ Hrun].
    rewrite Hrun2 in Hrun. discriminate Hrun. }
  (* both INSERTs are accepted: COMMIT, then the 201 that cannot go out *)
  rewrite Hinvalid in Heq.
  rewrite (signup_thrown b d n _ _ Heq). cbn [store salts sent trace].
  rewrite Hrej.
  split; [eexists; reflexivity|].
  split.
  { intros s' Hs'. rewrite Hs in Hs'. inversion Hs'; subst s'.
    eexists. reflexivity. }
  split.
  { intros s' id d1' Hs' Hexec. pose proof (Hq1 s' id d1' Hs' Hexec) as Hrun.
    rewrite Hrun1 in Hrun. inversion Hrun; subst id d1'.
    rewrite Hs in Hs'. inversion Hs'; subst s'. eexists. reflexivity. }
  intros s' id d1' rows' d2' Hs' Hexec Hexec2.
  destruct (Hq2 s' id d1' rows' d2' Hs' Hexec Hexec2) as [-> _].
  rewrite committed_after_rollback. unfold committed. cbn [txn current with_txn].
  exists r, a. rewrite Hcur2. cbn [users addresses]. repeat split; assumption.
Qed.
End SignupOutcomes.

(** ** The signup handler on the examples *)

Lemma signup_success_writes_both_rows_witness :
  all_parsed (L := stand_in) al = true
  /\ exists u a,
      users (committed (store (served (signup (L := stand_in) al)
                                      empty_database 0)))
      = users (current empty_database) ++ [u]
      /\ addresses (committed (store (served (signup (L := stand_in) al)
                                             empty_database 0)))
         = addresses (current empty_database) ++ [a]
      /\ a_user_id a = u_id u
      /\ u_id u = (users_id_seq empty_database + 1)%Z
      /\ username al = JString (u_username u)
      /\ txn (store (served (signup (L := stand_in) al) empty_database 0)) = Idle.
Proof.
  exact (signup_success_writes_both_rows (L := stand_in) al empty_database 0
           eq_refl eq_refl).
Defined.

Lemma invalid_request_goes_on_witness :
  exists u a,
    users (committed (store (served (signup (L := stand_in) one_letter)
                                    empty_database 0)))
    = users (current empty_database) ++ [u]
    /\ addresses (committed (store (served (signup (L := stand_in) one_letter)
                                           empty_database 0)))
       = addresses (current empty_database) ++ [a]
    /\ u_id u = 1%Z
    /\ a_user_id a = 1%Z.
Proof.
  destruct (invalid_request_goes_on (L := stand_in) one_letter empty_database 0
              eq_refl eq_refl) as (_ & _ & _ & _ & H).
  exact (H "x" 1%Z
           (snd (exec (L := stand_in)
                   (users_statement (L := stand_in) one_letter "$2b$10$x")
                   (begun empty_database)))
           []
           (snd (exec (L := stand_in)
                   (addresses_statement (L := stand_in) one_letter 1)
                   (snd (exec (L := stand_in)
                           (users_statement (L := stand_in) one_letter "$2b$10$x")
                           (begun empty_database)))))
           eq_refl eq_refl eq_refl).
Defined.

(** The claim C9 fails on the code: a request with an invalid field, here a
    missing password, for which neither BEGIN nor an INSERT is sent. *)
Lemma invalid_request_without_begin :
  all_parsed (L := stand_in) no_password = false
  /\ trace (served (signup (L := stand_in) no_password) empty_database 0)
     = [Json 401 (message "Invalid Entry");
        Hash JUndefined 10;
        Query ROLLBACK;
        ConsoleError "Error during transaction, rolled back." BcryptError;
        Json 500 (message "Error Inserting Data")]
  /\ ~ In (Query BEGIN)
          (trace (served (signup (L := stand_in) no_password) empty_database 0))
  /\ committed (store (served (signup (L := stand_in) no_password)
                              empty_database 0))
     = current empty_database.
Proof.
  split; [reflexivity|]. split; [reflexivity|]. split; [|reflexivity].
  cbv. intros H. repeat (destruct H as [H | H]; [discriminate H|]). exact H.
Qed.

(** C1, on a request it fails for. The username "a" does not parse and the
    client is told 401 "Invalid Entry"; the handler goes on all the same, and
    a user row and an address row are committed. *)
Theorem one_letter_username_is_stored :
  safeParse (L := stand_in) usernameSchema (username one_letter) = false
  /\ all_parsed (L := stand_in) one_letter = false
  /\ responds (served (signup (L := stand_in) one_letter) empty_database 0)
              401 "Invalid Entry"
  /\ committed (store (served (signup (L := stand_in) one_letter)
                              empty_database 0))
     = {| users := [{| u_id := 1; u_username := "a"; u_email := "a@b.com";
                       u_password := "$2b$10$x" |}];
          addresses := [{| a_id := 1; a_user_id := 1; a_city := "NY";
                           a_country := "US"; a_street := "Main";
                           a_pincode := Some "10001" |}] |}.
Proof. repeat split; reflexivity. Qed.

(** C3, on a request it fails for. [al] is registered; a second request
    carries the same username and no pincode. The INSERT into users breaks
    the unique constraint, ROLLBACK is sent and the tables are as before, but
    the client has already been told 401 "Invalid Entry": the 500 of the
    [catch] block cannot go out. *)
Theorem taken_username_after_401 :
  all_parsed (L := stand_in) no_pincode = false
  /\ trace (served (signup (L := stand_in) no_pincode) store_with_al 1)
     = [Json 401 (message "Invalid Entry");
        Hash (JString "x") 10;
        Query BEGIN;
        Query (INSERT_users (Some "al") (Some "a@b.com") (Some "$2b$10$x"));
        Query ROLLBACK;
        ConsoleError "Error during transaction, rolled back."
                     (DatabaseError unique_violation);
        Json 500 (message "Error Inserting Data")]
  /\ committed (store (served (signup (L := stand_in) no_pincode)
                              store_with_al 1))
     = committed store_with_al
  /\ responds (served (signup (L := stand_in) no_pincode) store_with_al 1)
              401 "Invalid Entry"
  /\ fst (signup (L := stand_in) no_pincode (arrival store_with_al 1))
     = Thrown HeadersSent.
Proof. repeat split; reflexivity. Qed.

(** * The lookup handlers *)

Lemma one_row_per_key (l : list user_row) (u : user_row) :
  NoDup (map u_id l) -> In u l ->
  filter (fun x => (u_id x =? u_id u)%Z) l = [u].
Proof.
  induction l as [|x l IH]; intros Hnd Hin; [contradiction|].
  simpl in Hnd. inversion Hnd as [|? ? Hnotin Hnd']; subst.
  assert (Hnone : forall y, ~ In (u_id y) (map u_id l) ->
                         filter (fun x => (u_id x =? u_id y)%Z) l = []).
  { clear. intros y Hy. induction l as [|z l IH]; [reflexivity|].
    simpl in *. destruct (u_id z =? u_id y)%Z eqn:E.
    - apply Z.eqb_eq in E. exfalso. apply Hy. now left.
    - apply IH. intros H. apply Hy. now right. }
  simpl. destruct Hin as [-> | Hin].
  - rewrite Z.eqb_refl. f_equal. now apply Hnone.
  - destruct (u_id x =? u_id u)%Z eqn:E.
    + apply Z.eqb_eq in E. exfalso. apply Hnotin. rewrite E.
      now apply in_map.
    + now apply IH.
Qed.

Section Lookups.
Context {L : Libs}.

Local Arguments exec : simpl never.

Lemma exec_SELECT_join_idle (p : option string) (d : database) :
  txn d = Idle -> exec (SELECT_join p) d = (select_join p (current d), d).
Proof. intros H. now rewrite (exec_idle (SELECT_join p) d H I). Qed.

Lemma exec_SELECT_user_idle (p : option string) (d : database) :
  txn d = Idle -> exec (SELECT_user p) d = (select_user p (current d), d).
Proof. intros H. now rewrite (exec_idle (SELECT_user p) d H I). Qed.

Lemma exec_SELECT_addresses_idle (p : option string) (d : database) :
  txn d = Idle ->
  exec (SELECT_addresses p) d = (select_addresses p (current d), d).
Proof. intros H. now rewrite (exec_idle (SELECT_addresses p) d H I). Qed.

(** The joined lookup, by the answer of the server. *)
Lemma goodapproach_run (q : jsval) (d : database) (k : nat) :
  txn d = Idle ->
  store (served (goodapproach q) d k) = d
  /\ sent (served (goodapproach q) d k)
     = Some match select_join (prepareValue q) (current d) with
            | inl _ => (500%Z, message "Error Fetching Data")
            | inr [] => (404%Z, message "User Not Found")
            | inr (row0 :: _) => (200%Z, userAndAddresses row0)
            end.
Proof.
  intros Hidle. unfold served, goodapproach, try_catch. cbv zeta.
  rewrite bind_query. cbn [arrival store].
  rewrite (exec_SELECT_join_idle _ d Hidle).
  destruct (select_join (prepareValue q) (current d)) as [e | [|row0 rest]];
    split; reflexivity.
Qed.

(** The two-query lookup, by the answers of the server. *)
Lemma badapproach_run (q : jsval) (d : database) (k : nat) :
  txn d = Idle ->
  store (served (badapproach q) d k) = d
  /\ sent (served (badapproach q) d k)
     = Some match select_user (prepareValue q) (current d) with
            | inl _ => (500%Z, message "Error Fetching Data")
            | inr [] => (404%Z, message "User Not Found")
            | inr (user :: _) =>
                match select_addresses (prepareValue q) (current d) with
                | inl _ => (500%Z, message "Error Fetching Data")
                | inr addresses => (200%Z, user_addresses user addresses)
                end
            end.
Proof.
  intros Hidle. unfold served, badapproach, try_catch. cbv zeta.
  rewrite bind_query. cbn [arrival store].
  rewrite (exec_SELECT_user_idle _ d Hidle).
  destruct (select_user (prepareValue q) (current d)) as [e | [|user rest]];
    try (split; reflexivity).
  rewrite bind_query. unfold stored, logged. cbn [store salts sent trace].
  rewrite (exec_SELECT_addresses_idle _ d Hidle).
  destruct (select_addresses (prepareValue q) (current d)) as [e | rows];
    split; reflexivity.
Qed.

(** C4. The joined lookup of an existing user: [u] is the row of users under
    the id [n], the ids being a key, and the id parameter is a string the
    server reads as [n]. The user's addresses are the rows of addresses whose
    user_id is [n], N of them. With none (N = 0) the answer is 404 "User Not
    Found"; with one or more it is 200 with one row only: the id, username
    and email of [u] beside the city, country, street and pincode of the
    first of those addresses. *)
Theorem goodapproach_first_row_only :
  forall (text : string) (n : Z) (d : database) (k : nat) (u : user_row),
    txn d = Idle ->
    int4in text = Some n ->
    NoDup (map u_id (users (current d))) ->
    In u (users (current d)) ->
    u_id u = n ->
    match filter (fun a => (a_user_id a =? n)%Z) (addresses (current d)) with
    | [] =>
        responds (served (goodapproach (JString text)) d k)
                 404 "User Not Found"
    | a :: _ =>
        sent (served (goodapproach (JString text)) d k)
        = Some (200%Z,
                userAndAddresses
                  (RJoined (u_id u) (u_username u) (u_email u)
                           (a_city a) (a_country a) (a_street a)
                           (a_pincode a)))
    end.
Proof.
  intros text n d k u Hidle Hid Hkeys Hin Hn.
  destruct (goodapproach_run (JString text) d k Hidle) as [_ Hsent].
  unfold responds. rewrite Hsent. clear Hsent.
  unfold select_join, sql_bind, int4. cbn [prepareValue]. rewrite Hid.
  unfold users_with_id. rewrite <- Hn.
  rewrite (one_row_per_key _ u Hkeys Hin). simpl. rewrite app_nil_r.
  unfold addresses_of.
  destruct (filter (fun a => (a_user_id a =? u_id u)%Z) (addresses (current d)));
    reflexivity.
Qed.

(** C5, as the code has it. The two-query lookup leaves the store as it was.
    When the id parameter is absent the answer is 404 "User Not Found". When
    it is a string the server cannot read as an integer the answer is 500
    "Error Fetching Data". When it is a string the server reads as the integer
    [n]: if no row of users has the id [n] the answer is 404 "User Not Found";
    otherwise it is 200 with the id, username and email of the user and every
    row of addresses whose user_id is [n], in the order of the table: N rows
    for a user with N addresses, none when N = 0. *)
Theorem badapproach_user_and_all_addresses :
  forall (d : database) (k : nat),
    txn d = Idle ->
    (store (served (badapproach JUndefined) d k) = d
     /\ responds (served (badapproach JUndefined) d k) 404 "User Not Found")
    /\ forall text,
        store (served (badapproach (JString text)) d k) = d
        /\ match int4in text with
           | None =>
               responds (served (badapproach (JString text)) d k)
                        500 "Error Fetching Data"
           | Some n =>
               match filter (fun u => (u_id u =? n)%Z) (users (current d)) with
               | [] =>
                   responds (served (badapproach (JString text)) d k)
                            404 "User Not Found"
               | u :: _ =>
                   sent (served (badapproach (JString text)) d k)
                   = Some (200%Z,
                           user_addresses
                             (RUser (u_id u) (u_username u) (u_email u))
                             (map RAddress
                                (filter (fun a => (a_user_id a =? n)%Z)
                                        (addresses (current d)))))
               end
           end.
Proof.
  intros d k Hidle. split.
  - destruct (badapproach_run JUndefined d k Hidle) as [Hstore Hsent].
    split; [exact Hstore|]. unfold responds. rewrite Hsent. reflexivity.
  - intros text.
    destruct (badapproach_run (JString text) d k Hidle) as [Hstore Hsent].
    split; [exact Hstore|].
    unfold responds. rewrite Hsent. clear Hsent.
    unfold select_user, select_addresses, sql_bind, int4, users_with_id,
      addresses_of.
    cbn [prepareValue].
    destruct (int4in text) as [n|]; [|reflexivity].
    destruct (filter (fun u => (u_id u =? n)%Z) (users (current d)));
      reflexivity.
Qed.

(** An id that does not read as an integer: the query is refused and both
    lookups answer 500. *)
Lemma lookup_of_malformed_id (q : jsval) (e : sqlerror) (d : database) (k : nat) :
  txn d = Idle ->
  int4 (prepareValue q) = inl e ->
  responds (served (badapproach q) d k) 500 "Error Fetching Data"
  /\ responds (served (goodapproach q) d k) 500 "Error Fetching Data".
Proof.
  intros Hidle Hid.
  destruct (badapproach_run q d k Hidle) as [_ Hbad].
  destruct (goodapproach_run q d k Hidle) as [_ Hgood].
  unfold responds. rewrite Hbad, Hgood.
  unfold select_user, select_join, sql_bind. rewrite Hid. split; reflexivity.
Qed.
End Lookups.

Lemma goodapproach_first_row_only_witness :
  sent (served (goodapproach (L := stand_in) (JString "1"))
               store_with_two_addresses 0)
  = Some (200%Z,
          userAndAddresses
            (RJoined 1 "al" "a@b.com" "NY" "US" "Main" (Some "10001"))).
Proof.
  refine (goodapproach_first_row_only (L := stand_in) "1" 1
            store_with_two_addresses 0 al_row eq_refl eq_refl _
            (or_introl eq_refl) eq_refl).
  simpl. constructor; [intros [] | constructor].
Defined.

Lemma badapproach_user_and_all_addresses_witness :
  sent (served (badapproach (L := stand_in) (JString "1"))
               store_with_two_addresses 0)
  = Some (200%Z,
          user_addresses (RUser 1 "al" "a@b.com")
                         [RAddress home; RAddress office]).
Proof.
  destruct (badapproach_user_and_all_addresses (L := stand_in)
              store_with_two_addresses 0 eq_refl) as [_ H].
  exact (proj2 (H "1")).
Defined.

(** The claim C5 fails on the code: the id "abc" is the id of no user row,
    and the answer is 500 "Error Fetching Data", not 404 "User Not Found". *)
Lemma unreadable_id_is_not_404 :
  (forall u, In u (users (current store_with_two_addresses)) ->
             NilZero.string_of_int (Z.to_int (u_id u)) <> "abc")
  /\ responds (served (badapproach (L := stand_in) (JString "abc"))
                      store_with_two_addresses 0)
              500 "Error Fetching Data"
  /\ ~ responds (served (badapproach (L := stand_in) (JString "abc"))
                        store_with_two_addresses 0)
                404 "User Not Found".
Proof.
  split; [|split].
  - intros u [<- | []]. vm_compute. discriminate.
  - reflexivity.
  - unfold responds. vm_compute. discriminate.
Qed.

(** The lookups of a user without address, and of nobody. *)
Example lookups_without_address :
  responds (served (goodapproach (L := stand_in) (JString "1"))
                   store_without_address 0) 404 "User Not Found"
  /\ sent (served (badapproach (L := stand_in) (JString "1"))
                  store_without_address 0)
     = Some (200%Z, user_addresses (RUser 1 "al" "a@b.com") [])
  /\ responds (served (goodapproach (L := stand_in) (JString "7"))
                      store_with_two_addresses 0) 404 "User Not Found"
  /\ responds (served (badapproach (L := stand_in) (JString "7"))
                      store_with_two_addresses 0) 404 "User Not Found"
  /\ responds (served (badapproach (L := stand_in) JUndefined)
                      store_with_two_addresses 0) 404 "User Not Found"
  /\ responds (served (badapproach (L := stand_in) (JString "abc"))
                      store_with_two_addresses 0) 500 "Error Fetching Data".
Proof. repeat split; reflexivity. Qed.

(** The scenario of the specification: [al] signs up and gets 201; the joined
    lookup of the id given out answers 200 with the city "NY". *)
Example al_signs_up_and_is_found :
  responds (served (signup (L := stand_in) al) empty_database 0)
           201 "Data Inserted Successfully"
  /\ sent (served (goodapproach (L := stand_in) (JString "1")) store_with_al 0)
     = Some (200%Z,
             userAndAddresses
               (RJoined 1 "al" "a@b.com" "NY" "US" "Main" (Some "10001"))).
Proof. split; reflexivity. Qed.

(** * Between requests *)

Lemma at_rest_empty : at_rest empty_database.
Proof. split; [reflexivity | constructor]. Qed.

Lemma new_key (l : list user_row) (r : user_row) :
  NoDup (map u_id l) ->
  existsb (fun x => (u_id x =? u_id r)%Z) l = false ->
  NoDup (map u_id (l ++ [r])).
Proof.
  intros Hnd Hnew. rewrite map_app. simpl.
  apply NoDup_app.
  - exact Hnd.
  - constructor; [intros [] | constructor].
  - intros k Hk [Hk' | []]. subst k.
    apply in_map_iff in Hk. destruct Hk as (x & Hx & Hinx).
    assert (Htrue : existsb (fun x => (u_id x =? u_id r)%Z) l = true).
    { apply existsb_exists. exists x. split; [exact Hinx|]. now apply Z.eqb_eq. }
    congruence.
Qed.

Section BetweenRequests.
Context {L : Libs}.

(** Every signup leaves the session idle and the ids of users a key, so the
    next request finds the store at rest again. *)
Lemma signup_keeps_at_rest (b : signup_body) (d : database) (n : nat) :
  at_rest d -> at_rest (store (served (signup b) d n)).
Proof.
  intros [Hidle Hkeys]. unfold at_rest.
  assert (Hroll : forall d', txn (snd (exec ROLLBACK d')) = Idle
                         /\ current (snd (exec ROLLBACK d')) = committed d').
  { intros d'. destruct (exec_ROLLBACK d') as (_ & H1 & H2 & _). now split. }
  destruct (signup_try_cases b d n Hidle) as [[_ Heq] | (s & Hs & Hcases)].
  { rewrite (signup_thrown b d n _ _ Heq). cbn [store].
    destruct (Hroll d) as [-> ->]. unfold committed. rewrite Hidle. now split. }
  cbv zeta in Hcases.
  destruct Hcases
    as [(err & d1 & _ & Heq) | (r & d1 & _ & Hid & Hnew & _ & Hcases)].
  { rewrite (signup_thrown b d n _ _ Heq). cbn [store].
    destruct (Hroll (with_txn (Aborted (current d)) d1)) as [-> ->].
    now split. }
  destruct Hcases
    as [(err & d2 & _ & Heq) | (rows & d2 & a & _ & _ & Hcur2 & Heq)].
  { rewrite (signup_thrown b d n _ _ Heq). cbn [store].
    destruct (Hroll (with_txn (Aborted (current d)) d2)) as [-> ->].
    now split. }
  assert (Hkeys2 : NoDup (map u_id (users (current d2)))).
  { rewrite Hcur2. cbn [users]. apply new_key; [exact Hkeys|].
    now destruct (new_user_inv _ _ _ _ _ _ Hnew) as (_ & _ & _ & _ & Hfresh). }
  destruct (all_parsed b).
  - rewrite (signup_returned b d n _ Heq). cbn [store]. now split.
  - rewrite (signup_thrown b d n _ _ Heq). cbn [store].
    destruct (Hroll (with_txn Idle d2)) as [-> ->]. now split.
Qed.

Lemma lookups_keep_the_store (q : jsval) (d : database) (k : nat) :
  at_rest d ->
  store (served (badapproach q) d k) = d
  /\ store (served (goodapproach q) d k) = d.
Proof.
  intros [Hidle _]. split.
  - now destruct (badapproach_run q d k Hidle).
  - now destruct (goodapproach_run q d k Hidle).
Qed.
End BetweenRequests.

(** C10, on a request it fails for. The password is missing: the 401 goes
    out, [bcrypt.hash] throws before any BEGIN, and the [catch] block sends
    ROLLBACK on a session with no open transaction, logs, and calls
    [res.status(500).json]. That call throws, the request being answered
    already: the client holds 401 "Invalid Entry", no 500 follows the
    ROLLBACK, and the promise of the handler rejects. *)
Theorem rollback_without_transaction_after_401 :
  some_field_failed (L := stand_in) no_password = true
  /\ signup_try (L := stand_in) no_password (arrival empty_database 0)
     = (Thrown BcryptError,
        {| store := empty_database; salts := 0;
           sent := Some (401%Z, message "Invalid Entry");
           trace := [Json 401 (message "Invalid Entry"); Hash JUndefined 10] |})
  /\ txn empty_database = Idle
  /\ trace (served (signup (L := stand_in) no_password) empty_database 0)
     = [Json 401 (message "Invalid Entry");
        Hash JUndefined 10;
        Query ROLLBACK;
        ConsoleError "Error during transaction, rolled back." BcryptError;
        Json 500 (message "Error Inserting Data")]
  /\ responds (served (signup (L := stand_in) no_password) empty_database 0)
              401 "Invalid Entry"
  /\ ~ responds (served (signup (L := stand_in) no_password) empty_database 0)
                500 "Error Inserting Data"
  /\ fst (signup (L := stand_in) no_password (arrival empty_database 0))
     = Thrown HeadersSent.
Proof.
  repeat split; try reflexivity.
  unfold responds. vm_compute. discriminate.
Qed.

(** * Beyond the claims: what validation accepts *)

(** X1. The seven [safeParse] calls and the [if] of the signup handler let a
    request through exactly when its username follows the rule of the
    pattern, its email is a string that zod's e-mail check accepts, and its
    password, city, country, street and pincode are strings, the empty string
    included. *)
Theorem validation_accepts_exactly :
  forall (L : Libs) (b : signup_body),
    some_field_failed b = false <->
    username_rule (username b)
    /\ (exists e, email b = JString e /\ zod_email e = true)
    /\ (exists s, password b = JString s)
    /\ (exists s, city b = JString s)
    /\ (exists s, country b = JString s)
    /\ (exists s, street b = JString s)
    /\ (exists s, pincode b = JString s).
Proof.
  intros L b.
  assert (Hstr : forall v, is_string v = true <-> exists s, v = JString s).
  { intros v. split.
    - destruct v; try discriminate. intros _. now eexists.
    - intros [s ->]. reflexivity. }
  assert (Hemail : safeParse emailSchema (email b) = true
                   <-> exists e, email b = JString e /\ zod_email e = true).
  { split.
    - intros H. destruct (safeParse_string_only _ _ H) as [e He].
      exists e. split; [exact He|]. rewrite He in H. simpl in H.
      now rewrite andb_true_r in H.
    - intros (e & -> & He). simpl. now rewrite He. }
  rewrite <- (usernameSchema_rule (username b)), <- Hemail, <- !Hstr.
  rewrite <- all_parsed_true. unfold all_parsed.
  destruct (some_field_failed b); simpl; intuition congruence.
Qed.

(** * Beyond the claims: the store, statement by statement *)

Section StoreSteps.
Context {L : Libs}.

Lemma run_users_accepted (d d' : database) (u e p : option string)
    (rows : list row) :
  run (INSERT_users u e p) d = (inr rows, d') ->
  (users_id_seq d < 2147483647)%Z
  /\ exists r,
      new_user (users_id_seq d + 1) u e p (current d) = inr r
      /\ u_id r = (users_id_seq d + 1)%Z
      /\ rows = [RId (u_id r)]
      /\ d' = {| current := {| users := users (current d) ++ [r];
                               addresses := addresses (current d) |};
                 users_id_seq := users_id_seq d + 1;
                 addresses_id_seq := addresses_id_seq d;
                 txn := txn d |}.
Proof.
  unfold run, nextval. pose proof (new_user_by_columns u e p) as Hcols.
  destruct (users_columns u e p) as [err | columns]; [discriminate|].
  destruct (users_id_seq d <? 2147483647)%Z eqn:Hseq; [|discriminate].
  rewrite <- Hcols.
  destruct (new_user _ u e p (current d)) as [err | r] eqn:E; [discriminate|].
  intros H. inversion H; subst; clear H. split; [now apply Z.ltb_lt|].
  exists r. destruct (new_user_inv _ _ _ _ _ _ E) as [Hid _].
  rewrite Hid. repeat split; assumption || reflexivity.
Qed.

Lemma run_users_refused (d d' : database) (u e p : option string)
    (err : sqlerror) :
  run (INSERT_users u e p) d = (inl err, d') ->
  current d' = current d /\ txn d' = txn d
  /\ addresses_id_seq d' = addresses_id_seq d
  /\ (users_id_seq d <= users_id_seq d')%Z
  /\ ((2147483647 <= users_id_seq d)%Z
      \/ new_user (users_id_seq d + 1) u e p (current d) = inl err).
Proof.
  unfold run, nextval. pose proof (new_user_by_columns u e p) as Hcols.
  destruct (users_columns u e p) as [err' | columns].
  { intros H. inversion H; subst; clear H.
    repeat split; try lia. right. apply Hcols. }
  destruct (users_id_seq d <? 2147483647)%Z eqn:Hseq.
  - rewrite <- Hcols.
    destruct (new_user _ u e p (current d)) as [err' | r] eqn:E; [|discriminate].
    intros H. inversion H; subst; clear H. simpl.
    repeat split; try lia. now right.
  - intros H. inversion H; subst; clear H. apply Z.ltb_ge in Hseq.
    repeat split; lia.
Qed.

Lemma run_addresses_accepted (d d' : database) (uid : Z)
    (c k s z : option string) (rows : list row) :
  run (INSERT_addresses uid c k s z) d = (inr rows, d') ->
  (addresses_id_seq d < 2147483647)%Z
  /\ exists a,
      new_address (addresses_id_seq d + 1) uid c k s z (current d) = inr a
      /\ a_id a = (addresses_id_seq d + 1)%Z
      /\ rows = []
      /\ d' = {| current := {| users := users (current d);
                               addresses := addresses (current d) ++ [a] |};
                 users_id_seq := users_id_seq d;
                 addresses_id_seq := addresses_id_seq d + 1;
                 txn := txn d |}.
Proof.
  unfold run, nextval. pose proof (new_address_by_columns c k s z) as Hcols.
  destruct (addresses_columns c k s z) as [err | columns]; [discriminate|].
  destruct (addresses_id_seq d <? 2147483647)%Z eqn:Hseq; [|discriminate].
  rewrite <- Hcols.
  destruct (new_address _ uid c k s z (current d)) as [err | a] eqn:E;
    [discriminate|].
  intros H. inversion H; subst; clear H. split; [now apply Z.ltb_lt|].
  exists a. destruct (new_address_inv _ _ _ _ _ _ _ _ E) as [Hid _].
  rewrite Hid. repeat split; assumption || reflexivity.
Qed.

Lemma run_addresses_refused (d d' : database) (uid : Z)
    (c k s z : option string) (err : sqlerror) :
  run (INSERT_addresses uid c k s z) d = (inl err, d') ->
  current d' = current d /\ txn d' = txn d
  /\ users_id_seq d' = users_id_seq d
  /\ (addresses_id_seq d <= addresses_id_seq d')%Z
  /\ ((2147483647 <= addresses_id_seq d)%Z
      \/ new_address (addresses_id_seq d + 1) uid c k s z (current d)
         = inl err).
Proof.
  unfold run, nextval. pose proof (new_address_by_columns c k s z) as Hcols.
  destruct (addresses_columns c k s z) as [err' | columns].
  { intros H. inversion H; subst; clear H.
    repeat split; try lia. right. apply Hcols. }
  destruct (addresses_id_seq d <? 2147483647)%Z eqn:Hseq.
  - rewrite <- Hcols.
    destruct (new_address _ uid c k s z (current d)) as [err' | r] eqn:E;
      [|discriminate].
    intros H. inversion H; subst; clear H. simpl.
    repeat split; try lia. now right.
  - intros H. inversion H; subst; clear H. apply Z.ltb_ge in Hseq.
    repeat split; lia.
Qed.
End StoreSteps.

(** * Beyond the claims: how a signup ends *)

Section SignupEnds.
Context {L : Libs}.

Local Arguments run : simpl never.
Local Arguments exec : simpl never.

Lemma signup_outcome_thrown (b : signup_body) (d : database) (n : nat)
    (e : exn) (w1 : world) :
  signup_try b (arrival d n) = (Thrown e, w1) ->
  fst (signup b (arrival d n))
  = match sent w1 with
    | None => Returned tt
    | Some _ => Thrown HeadersSent
    end.
Proof.
  intros H. unfold signup, try_catch. rewrite H, signup_catch_run.
  reflexivity.
Qed.

Lemma signup_outcome_returned (b : signup_body) (d : database) (n : nat)
    (w1 : world) :
  signup_try b (arrival d n) = (Returned tt, w1) ->
  fst (signup b (arrival d n)) = Returned tt.
Proof. intros H. unfold signup, try_catch. now rewrite H. Qed.

Lemma rollback_of_aborted (saved : tables) (d : database) :
  snd (exec ROLLBACK (with_txn (Aborted saved) d))
  = {| current := saved; users_id_seq := users_id_seq d;
       addresses_id_seq := addresses_id_seq d; txn := Idle |}.
Proof. reflexivity. Qed.

Lemma rollback_of_idle (d : database) :
  txn d = Idle -> snd (exec ROLLBACK d) = d.
Proof. unfold exec. now intros ->. Qed.

(** The two ways a signup can end, for a request that arrives at a session
    with no open transaction: nothing written, or both rows committed. *)
Lemma signup_ends (b : signup_body) (d : database) (n : nat) :
  txn d = Idle ->
  fst (signup b (arrival d n))
  = (if all_parsed b then Returned tt else Thrown HeadersSent)
  /\ ((current (store (served (signup b) d n)) = current d
       /\ txn (store (served (signup b) d n)) = Idle
       /\ (users_id_seq d <= users_id_seq (store (served (signup b) d n)))%Z
       /\ (addresses_id_seq d
           <= addresses_id_seq (store (served (signup b) d n)))%Z
       /\ sent (served (signup b) d n)
          = Some (if all_parsed b
                  then (500%Z, message "Error Inserting Data")
                  else (401%Z, message "Invalid Entry"))
       /\ (exists calls,
              queries (trace (served (signup b) d n)) = calls ++ [ROLLBACK]
              /\ ~ In COMMIT calls)
       /\ (is_string (password b) = false
           \/ (exists s,
                  password b = JString s
                  /\ ((2147483647 <= users_id_seq d)%Z
                      \/ exists err,
                          new_user (users_id_seq d + 1)
                                   (prepareValue (username b))
                                   (prepareValue (email b))
                                   (Some (bcrypt_digest s saltRounds n))
                                   (current d)
                          = inl err))
           \/ (exists s r,
                  password b = JString s
                  /\ new_user (users_id_seq d + 1)
                              (prepareValue (username b))
                              (prepareValue (email b))
                              (Some (bcrypt_digest s saltRounds n))
                              (current d)
                     = inr r
                  /\ ((2147483647 <= addresses_id_seq d)%Z
                      \/ exists err,
                          new_address (addresses_id_seq d + 1) (u_id r)
                                      (prepareValue (city b))
                                      (prepareValue (country b))
                                      (prepareValue (street b))
                                      (prepareValue (pincode b))
                                      {| users := users (current d) ++ [r];
                                         addresses := addresses (current d) |}
                          = inl err))))
      \/ exists s r a,
          password b = JString s
          /\ new_user (users_id_seq d + 1) (prepareValue (username b))
                      (prepareValue (email b))
                      (Some (bcrypt_digest s saltRounds n)) (current d)
             = inr r
          /\ new_address (addresses_id_seq d + 1) (u_id r)
                         (prepareValue (city b)) (prepareValue (country b))
                         (prepareValue (street b)) (prepareValue (pincode b))
                         {| users := users (current d) ++ [r];
                            addresses := addresses (current d) |}
             = inr a
          /\ store (served (signup b) d n)
             = {| current := {| users := users (current d) ++ [r];
                                addresses := addresses (current d) ++ [a] |};
                  users_id_seq := users_id_seq d + 1;
                  addresses_id_seq := addresses_id_seq d + 1;
                  txn := Idle |}
          /\ sent (served (signup b) d n)
             = Some (if all_parsed b
                     then (201%Z, message "Data Inserted Successfully")
                     else (401%Z, message "Invalid Entry"))
          /\ queries (trace (served (signup b) d n))
             = [BEGIN;
                users_statement b (bcrypt_digest s saltRounds n);
                addresses_statement b (u_id r);
                COMMIT]
               ++ (if all_parsed b then [] else [ROLLBACK])).
Proof.
  intros Hidle.
  assert (Hfirst : first_response b
                   = if all_parsed b then None
                     else Some (401%Z, message "Invalid Entry"))
    by reflexivity.
  assert (Hrej : queries (rejection b) = []).
  { unfold rejection. destruct (all_parsed b); reflexivity. }
  assert (Hq : forall t1 t2, queries (t1 ++ t2) = queries t1 ++ queries t2).
  { intros t1 t2. unfold queries. now rewrite flat_map_app. }
  destruct (signup_try_cases b d n Hidle) as [[Hnot Heq] | (s & Hs & Hcases)].
  { (* bcrypt rejects the password *)
    split.
    { rewrite (signup_outcome_thrown b d n _ _ Heq). cbn [sent].
      rewrite Hfirst. destruct (all_parsed b); reflexivity. }
    left. rewrite (signup_thrown b d n _ _ Heq). cbn [store sent trace].
    rewrite (rollback_of_idle d Hidle), Hfirst.
    split; [reflexivity|]. split; [assumption|]. split; [lia|]. split; [lia|].
    split; [destruct (all_parsed b); reflexivity|].
    split; [|now left].
    exists []. rewrite !Hq, Hrej. split; [reflexivity | intros []]. }
  cbv zeta in Hcases.
  destruct Hcases
    as [(err & d1 & Hrun1 & Heq) | (r & d1 & Hrun1 & Hid & Hnew & Hcur1 & Hcases)].
  { (* the INSERT into users is refused *)
    split.
    { rewrite (signup_outcome_thrown b d n _ _ Heq). cbn [sent].
      rewrite Hfirst. destruct (all_parsed b); reflexivity. }
    left. rewrite (signup_thrown b d n _ _ Heq). cbn [store sent trace].
    rewrite rollback_of_aborted, Hfirst. cbn [current txn users_id_seq
                                                addresses_id_seq].
    destruct (run_users_refused _ _ _ _ _ _ Hrun1) as (_ & _ & Ha & Hu & Hwhy).
    cbn [begun with_txn users_id_seq addresses_id_seq current] in Ha, Hu, Hwhy.
    split; [reflexivity|]. split; [reflexivity|]. split; [lia|]. split; [lia|].
    split; [destruct (all_parsed b); reflexivity|].
    split.
    - eexists. rewrite !Hq, Hrej. split; [reflexivity|].
      simpl. intros [H | [H | []]]; discriminate H.
    - right. left. exists s. split; [exact Hs|].
      destruct Hwhy as [Hmax | Hwhy]; [now left | right; now exists err]. }
  destruct (run_users_accepted _ _ _ _ _ _ Hrun1) as (Hlt1 & r' & Hnew' & Hid' & _ & Hd1).
  cbn [begun with_txn current users_id_seq addresses_id_seq txn] in Hnew', Hd1.
  assert (r' = r) as ->.
  { rewrite Hid in Hnew. unfold prepareValue at 3 in Hnew'.
    rewrite Hnew in Hnew'. now inversion Hnew'. }
  destruct Hcases
    as [(err & d2 & Hrun2 & Heq) | (rows & d2 & a & Hrun2 & Huid & Hcur2 & Heq)].
  { (* the INSERT into addresses is refused *)
    split.
    { rewrite (signup_outcome_thrown b d n _ _ Heq). cbn [sent].
      rewrite Hfirst. destruct (all_parsed b); reflexivity. }
    left. rewrite (signup_thrown b d n _ _ Heq). cbn [store sent trace].
    rewrite rollback_of_aborted, Hfirst. cbn [current txn users_id_seq
                                                addresses_id_seq].
    destruct (run_addresses_refused _ _ _ _ _ _ _ _ Hrun2)
      as (_ & _ & Hu & Ha & Hwhy).
    rewrite Hd1 in Hu, Ha, Hwhy.
    cbn [users_id_seq addresses_id_seq current] in Hu, Ha, Hwhy.
    split; [reflexivity|]. split; [reflexivity|]. split; [lia|]. split; [lia|].
    split; [destruct (all_parsed b); reflexivity|].
    split.
    - eexists. rewrite !Hq, Hrej. split; [reflexivity|].
      simpl. intros [H | [H | [H | []]]]; discriminate H.
    - right. right. exists s, r. split; [exact Hs|]. split; [exact Hnew'|].
      destruct Hwhy as [Hmax | Hwhy]; [now left | right; now exists err]. }
  (* both INSERTs are accepted *)
  destruct (run_addresses_accepted _ _ _ _ _ _ _ _ Hrun2)
    as (Hlt2 & a' & Hnewa & Hida & _ & Hd2).
  rewrite Hd1 in Hnewa, Hd2.
  cbn [current users_id_seq addresses_id_seq txn users addresses] in Hnewa, Hd2.
  split.
  { destruct (all_parsed b) eqn:Hvalid.
    - now rewrite (signup_outcome_returned b d n _ Heq).
    - rewrite (signup_outcome_thrown b d n _ _ Heq). cbn [sent].
      now rewrite Hfirst. }
  right. exists s, r, a'.
  split; [exact Hs|]. split; [exact Hnew'|]. split; [exact Hnewa|].
  destruct (all_parsed b) eqn:Hvalid.
  - rewrite (signup_returned b d n _ Heq). cbn [store sent trace].
    rewrite Hd2. repeat split. rewrite !Hq, Hrej. rewrite app_nil_r.
    reflexivity.
  - rewrite (signup_thrown b d n _ _ Heq). cbn [store sent trace].
    rewrite (rollback_of_idle (with_txn Idle d2) eq_refl), Hd2, Hfirst.
    repeat split. rewrite !Hq, Hrej. reflexivity.
Qed.
End SignupEnds.

Section SignupProperties.
Context {L : Libs}.

(** When the [try] block throws before any BEGIN, validation had failed:
    the client holds the 401 and no 500 can follow the ROLLBACK. *)
Lemma throw_before_begin_leaves_401 (b : signup_body) (d : database) (n : nat)
    (e : exn) (w1 : world) :
  txn d = Idle ->
  signup_try b (arrival d n) = (Thrown e, w1) ->
  ~ In (Query BEGIN) (trace w1) ->
  e = BcryptError
  /\ some_field_failed b = true
  /\ responds (served (signup b) d n) 401 "Invalid Entry"
  /\ fst (signup b (arrival d n)) = Thrown HeadersSent.
Proof.
  intros Hidle Htry Hno.
  assert (Hbegin : forall pre post, In (Query BEGIN)
            (pre ++ Hash (password b) saltRounds :: Query BEGIN :: post)).
  { intros pre post. apply in_or_app. right. right. now left. }
  destruct (signup_try_cases b d n Hidle) as [[Hnot Heq] | (s & Hs & Hcases)].
  - rewrite Heq in Htry. inversion Htry; subst e w1; clear Htry.
    assert (Hinvalid : all_parsed b = false).
    { destruct (all_parsed b) eqn:E; [|reflexivity].
      destruct (proj1 (all_parsed_true b) E) as (_ & _ & Hp & _). congruence. }
    split; [reflexivity|].
    split; [unfold all_parsed in Hinvalid; now destruct (some_field_failed b)|].
    split; [now apply invalid_signup_responds_401|].
    destruct (signup_ends b d n Hidle) as [Hout _]. now rewrite Hinvalid in Hout.
  - exfalso. cbv zeta in Hcases.
    destruct Hcases
      as [(err & d1 & _ & Heq) | (r & d1 & _ & _ & _ & _ & Hcases)].
    { rewrite Heq in Htry. inversion Htry; subst. apply Hno. apply Hbegin. }
    destruct Hcases
      as [(err & d2 & _ & Heq) | (rows & d2 & a & _ & _ & _ & Heq)].
    { rewrite Heq in Htry. inversion Htry; subst. apply Hno. apply Hbegin. }
    rewrite Heq in Htry. inversion Htry; subst. apply Hno. cbn [trace].
    rewrite <- app_assoc. apply Hbegin.
Qed.

(** X2. The answer of a signup is decided by validation alone when a field
    failed: the client holds 401 "Invalid Entry" and the promise of the
    handler rejects, a later response having been attempted on the answered
    request. When every field parsed the client holds 201 or the generic 500,
    never anything else, and the promise resolves. *)
Theorem signup_settles_by_validation :
  forall (b : signup_body) (d : database) (n : nat),
    txn d = Idle ->
    (some_field_failed b = true
     /\ responds (served (signup b) d n) 401 "Invalid Entry"
     /\ fst (signup b (arrival d n)) = Thrown HeadersSent)
    \/ (some_field_failed b = false
        /\ (responds (served (signup b) d n) 201 "Data Inserted Successfully"
            \/ responds (served (signup b) d n) 500 "Error Inserting Data")
        /\ fst (signup b (arrival d n)) = Returned tt).
Proof.
  intros b d n Hidle. unfold responds.
  destruct (signup_ends b d n Hidle) as [Hout Hend].
  unfold all_parsed in *.
  destruct (some_field_failed b); simpl in *.
  - left. split; [reflexivity|]. split; [|exact Hout].
    destruct Hend as [(_ & _ & _ & _ & Hsent & _)
                     | (s & r & a & _ & _ & _ & _ & Hsent & _)]; exact Hsent.
  - right. split; [reflexivity|]. split; [|exact Hout].
    destruct Hend as [(_ & _ & _ & _ & Hsent & _)
                     | (s & r & a & _ & _ & _ & _ & Hsent & _)];
      [right | left]; exact Hsent.
Qed.

(** X3. A signup writes both rows or none: whatever the request, the tables
    as committed afterwards are the tables of before, or the tables of before
    with one more user row and one more address row that refers to it; the
    session is left with no open transaction. *)
Theorem signup_writes_both_rows_or_none :
  forall (b : signup_body) (d : database) (n : nat),
    txn d = Idle ->
    txn (store (served (signup b) d n)) = Idle
    /\ (committed (store (served (signup b) d n)) = current d
        \/ exists u a,
            committed (store (served (signup b) d n))
            = {| users := users (current d) ++ [u];
                 addresses := addresses (current d) ++ [a] |}
            /\ a_user_id a = u_id u).
Proof.
  intros b d n Hidle.
  destruct (signup_ends b d n Hidle) as [_ Hend].
  destruct Hend as [(Hcur & Htxn & _)
                   | (s & r & a & _ & _ & Hnewa & Hstore & _)].
  - split; [exact Htxn|]. left. unfold committed. now rewrite Htxn.
  - rewrite Hstore. split; [reflexivity|]. right. exists r, a.
    split; [reflexivity|].
    now destruct (new_address_inv _ _ _ _ _ _ _ _ Hnewa) as (_ & Huid & _).
Qed.

(** X4. For a request whose fields all parsed the answer tells what happened
    to the store. Either the client holds 201, both rows are committed and
    the statements sent were BEGIN, the two INSERTs and COMMIT, in that
    order; or the client holds the generic 500, the tables are as before, the
    last statement sent was ROLLBACK and no COMMIT was sent. *)
Theorem valid_signup_answer_matches_store :
  forall (b : signup_body) (d : database) (n : nat),
    txn d = Idle ->
    some_field_failed b = false ->
    (responds (served (signup b) d n) 201 "Data Inserted Successfully"
     /\ (exists u a h,
            committed (store (served (signup b) d n))
            = {| users := users (current d) ++ [u];
                 addresses := addresses (current d) ++ [a] |}
            /\ queries (trace (served (signup b) d n))
               = [BEGIN; users_statement b h; addresses_statement b (u_id u);
                  COMMIT]))
    \/ (responds (served (signup b) d n) 500 "Error Inserting Data"
        /\ committed (store (served (signup b) d n)) = current d
        /\ exists calls,
            queries (trace (served (signup b) d n)) = calls ++ [ROLLBACK]
            /\ ~ In COMMIT calls).
Proof.
  intros b d n Hidle Hvalid. unfold responds.
  destruct (signup_ends b d n Hidle) as [_ Hend].
  unfold all_parsed in Hend. rewrite Hvalid in Hend. simpl in Hend.
  destruct Hend as [(Hcur & Htxn & _ & _ & Hsent & Hcalls & _)
                   | (s & r & a & _ & _ & _ & Hstore & Hsent & Hcalls)].
  - right. split; [exact Hsent|]. split; [|exact Hcalls].
    unfold committed. now rewrite Htxn.
  - left. split; [exact Hsent|].
    exists r, a, (bcrypt_digest s saltRounds n). rewrite Hstore.
    split; [reflexivity|]. now rewrite Hcalls.
Qed.
End SignupProperties.

Lemma signup_settles_by_validation_witness :
  (some_field_failed (L := stand_in) one_letter = true
   /\ responds (served (signup (L := stand_in) one_letter) empty_database 0)
               401 "Invalid Entry"
   /\ fst (signup (L := stand_in) one_letter (arrival empty_database 0))
      = Thrown HeadersSent)
  \/ (some_field_failed (L := stand_in) one_letter = false
      /\ (responds (served (signup (L := stand_in) one_letter) empty_database 0)
                   201 "Data Inserted Successfully"
          \/ responds (served (signup (L := stand_in) one_letter)
                              empty_database 0)
                      500 "Error Inserting Data")
      /\ fst (signup (L := stand_in) one_letter (arrival empty_database 0))
         = Returned tt).
Proof.
  exact (signup_settles_by_validation (L := stand_in) one_letter
           empty_database 0 eq_refl).
Defined.

Lemma signup_writes_both_rows_or_none_witness :
  txn (store (served (signup (L := stand_in) long_city) empty_database 0))
  = Idle
  /\ (committed (store (served (signup (L := stand_in) long_city)
                               empty_database 0))
      = current empty_database
      \/ exists u a,
          committed (store (served (signup (L := stand_in) long_city)
                                   empty_database 0))
          = {| users := users (current empty_database) ++ [u];
               addresses := addresses (current empty_database) ++ [a] |}
          /\ a_user_id a = u_id u).
Proof.
  exact (signup_writes_both_rows_or_none (L := stand_in) long_city
           empty_database 0 eq_refl).
Defined.

Lemma valid_signup_answer_matches_store_witness :
  (responds (served (signup (L := stand_in) al) store_with_al 1)
            201 "Data Inserted Successfully"
   /\ (exists u a h,
          committed (store (served (signup (L := stand_in) al) store_with_al 1))
          = {| users := users (current store_with_al) ++ [u];
               addresses := addresses (current store_with_al) ++ [a] |}
          /\ queries (trace (served (signup (L := stand_in) al) store_with_al 1))
             = [BEGIN; users_statement (L := stand_in) al h;
                addresses_statement (L := stand_in) al (u_id u); COMMIT]))
  \/ (responds (served (signup (L := stand_in) al) store_with_al 1)
               500 "Error Inserting Data"
      /\ committed (store (served (signup (L := stand_in) al) store_with_al 1))
         = current store_with_al
      /\ exists calls,
          queries (trace (served (signup (L := stand_in) al) store_with_al 1))
          = calls ++ [ROLLBACK]
          /\ ~ In COMMIT calls).
Proof.
  exact (valid_signup_answer_matches_store (L := stand_in) al store_with_al 1
           eq_refl eq_refl).
Defined.

(** * Beyond the claims: what the server refuses, what it accepts *)

Lemma existsb_false {A : Type} (f : A -> bool) (l : list A) :
  existsb f l = false <-> forall x, In x l -> f x = false.
Proof.
  induction l as [|y l IH]; simpl.
  - split; [intros _ x [] | reflexivity].
  - rewrite orb_false_iff, IH. split.
    + intros [Hy Hl] x [<- | Hx]; auto.
    + intros H. split; [apply H; now left | intros x Hx; apply H; now right].
Qed.

Lemma username_taken (s : string) (l : list user_row) :
  In s (map u_username l) ->
  existsb (fun r => String.eqb (u_username r) s) l = true.
Proof.
  intros H. apply in_map_iff in H. destruct H as (x & Hx & Hin).
  apply existsb_exists. exists x. split; [exact Hin|].
  rewrite Hx. apply String.eqb_refl.
Qed.

Lemma email_taken (e : string) (l : list user_row) :
  In e (map u_email l) ->
  existsb (fun r => String.eqb (u_email r) e) l = true.
Proof.
  intros H. apply in_map_iff in H. destruct H as (x & Hx & Hin).
  apply existsb_exists. exists x. split; [exact Hin|].
  rewrite Hx. apply String.eqb_refl.
Qed.

Lemma username_free (s : string) (l : list user_row) :
  ~ In s (map u_username l) ->
  existsb (fun r => String.eqb (u_username r) s) l = false.
Proof.
  intros H. apply existsb_false. intros x Hx.
  destruct (String.eqb (u_username x) s) eqn:E; [|reflexivity].
  apply String.eqb_eq in E. exfalso. apply H. rewrite <- E. now apply in_map.
Qed.

Lemma email_free (e : string) (l : list user_row) :
  ~ In e (map u_email l) ->
  existsb (fun r => String.eqb (u_email r) e) l = false.
Proof.
  intros H. apply existsb_false. intros x Hx.
  destruct (String.eqb (u_email x) e) eqn:E; [|reflexivity].
  apply String.eqb_eq in E. exfalso. apply H. rewrite <- E. now apply in_map.
Qed.

Lemma user_id_free (seq : Z) (l : list user_row) :
  (forall u, In u l -> (u_id u <= seq)%Z) ->
  existsb (fun r => (u_id r =? seq + 1)%Z) l = false.
Proof.
  intros H. apply existsb_false. intros x Hx.
  apply Z.eqb_neq. specialize (H x Hx). lia.
Qed.

Lemma address_id_free (seq : Z) (l : list address_row) :
  (forall a, In a l -> (a_id a <= seq)%Z) ->
  existsb (fun r => (a_id r =? seq + 1)%Z) l = false.
Proof.
  intros H. apply existsb_false. intros x Hx.
  apply Z.eqb_neq. specialize (H x Hx). lia.
Qed.

Ltac refused :=
  repeat match goal with
         | |- exists _, inl _ = inl _ => eexists; reflexivity
         | |- exists _, match ?x with _ => _ end = inl _ => destruct x eqn:?
         end.

Lemma new_user_username_taken (id : Z) (s : string) (e p : option string)
    (t : tables) :
  String.length s <= 50 ->
  In s (map u_username (users t)) ->
  exists err, new_user id (Some s) e p t = inl err.
Proof.
  intros Hlen Hin. apply username_taken in Hin.
  pose proof (new_user_by_columns (Some s) e p) as Hcols.
  destruct (users_columns (Some s) e p) as [err | [[u' e'] p']] eqn:Hc.
  - exists err. apply Hcols.
  - rewrite Hcols. apply users_columns_inv in Hc.
    destruct Hc as (_ & _ & _ & Hu & _).
    rewrite (varchar_short 50 s Hlen) in Hu. inversion Hu; subst u'.
    unfold users_row, sql_bind. cbn [not_null]. refused.
    unfold unique in *. rewrite Hin in *. discriminate.
Qed.

Lemma new_user_email_taken (id : Z) (u p : option string) (e : string)
    (t : tables) :
  String.length e <= 50 ->
  In e (map u_email (users t)) ->
  exists err, new_user id u (Some e) p t = inl err.
Proof.
  intros Hlen Hin. apply email_taken in Hin.
  pose proof (new_user_by_columns u (Some e) p) as Hcols.
  destruct (users_columns u (Some e) p) as [err | [[u' e'] p']] eqn:Hc.
  - exists err. apply Hcols.
  - rewrite Hcols. apply users_columns_inv in Hc.
    destruct Hc as (_ & _ & _ & _ & He & _).
    rewrite (varchar_short 50 e Hlen) in He. inversion He; subst e'.
    unfold users_row, sql_bind. cbn [not_null]. refused.
    unfold unique in *. rewrite Hin in *. discriminate.
Qed.

Lemma new_user_email_too_long (id : Z) (u e p : option string) (t : tables)
    (err : sqlerror) :
  varchar 50 e = inl err -> exists err', new_user id u e p t = inl err'.
Proof.
  intros H. pose proof (new_user_by_columns u e p) as Hcols.
  destruct (users_columns u e p) as [err' | [[u' e'] p']] eqn:Hc.
  - exists err'. apply Hcols.
  - apply users_columns_inv in Hc. destruct Hc as (_ & _ & _ & _ & He & _).
    rewrite H in He. discriminate He.
Qed.

Lemma new_address_too_long (id uid : Z) (c k s z : option string) (t : tables) :
  (exists err, varchar 100 c = inl err)
  \/ (exists err, varchar 100 k = inl err)
  \/ (exists err, varchar 100 s = inl err)
  \/ (exists err, varchar 20 z = inl err) ->
  exists err, new_address id uid c k s z t = inl err.
Proof.
  intros H. pose proof (new_address_by_columns c k s z) as Hcols.
  destruct (addresses_columns c k s z) as [err' | [[[c' k'] s'] z']] eqn:Hc.
  - exists err'. apply Hcols.
  - exfalso. apply addresses_columns_inv in Hc.
    destruct Hc as (_ & _ & _ & _ & Hvc & Hvk & Hvs & Hvz).
    destruct H as [[err H] | [[err H] | [[err H] | [err H]]]]; congruence.
Qed.

Lemma new_user_accepts (seq : Z) (name mail pw : string) (t : tables) :
  has_nul name = false ->
  has_nul mail = false ->
  has_nul pw = false ->
  String.length name <= 50 ->
  String.length mail <= 50 ->
  String.length pw <= 100 ->
  (forall u, In u (users t) -> (u_id u <= seq)%Z) ->
  ~ In name (map u_username (users t)) ->
  ~ In mail (map u_email (users t)) ->
  new_user (seq + 1) (Some name) (Some mail) (Some pw) t
  = inr {| u_id := seq + 1; u_username := name; u_email := mail;
           u_password := pw |}.
Proof.
  intros Hn0 Hm0 Hp0 Hn Hm Hp Hseq Hname Hmail.
  unfold new_user, users_columns, text_in. rewrite Hn0, Hm0, Hp0.
  cbn [sql_bind].
  rewrite (varchar_short 50 name Hn), (varchar_short 50 mail Hm),
    (varchar_short 100 pw Hp).
  cbn [sql_bind users_row not_null]. unfold unique.
  now rewrite (user_id_free seq _ Hseq), (username_free _ _ Hname),
    (email_free _ _ Hmail).
Qed.

Lemma new_address_accepts (seq uid : Z) (c k s z : string) (t : tables) :
  has_nul c = false ->
  has_nul k = false ->
  has_nul s = false ->
  has_nul z = false ->
  String.length c <= 100 ->
  String.length k <= 100 ->
  String.length s <= 100 ->
  String.length z <= 20 ->
  (forall a, In a (addresses t) -> (a_id a <= seq)%Z) ->
  In uid (map u_id (users t)) ->
  new_address (seq + 1) uid (Some c) (Some k) (Some s) (Some z) t
  = inr {| a_id := seq + 1; a_user_id := uid; a_city := c; a_country := k;
           a_street := s; a_pincode := Some z |}.
Proof.
  intros Hc0 Hk0 Hs0 Hz0 Hc Hk Hs Hz Hseq Hfk.
  unfold new_address, addresses_columns, text_in. rewrite Hc0, Hk0, Hs0, Hz0.
  cbn [sql_bind].
  rewrite (varchar_short 100 c Hc), (varchar_short 100 k Hk),
    (varchar_short 100 s Hs), (varchar_short 20 z Hz).
  cbn [sql_bind addresses_row not_null]. unfold unique.
  rewrite (address_id_free seq _ Hseq).
  assert (Hex : existsb (fun r => (u_id r =? uid)%Z) (users t) = true).
  { apply in_map_iff in Hfk. destruct Hfk as (x & Hx & Hin).
    apply existsb_exists. exists x. split; [exact Hin | now apply Z.eqb_eq]. }
  now rewrite Hex.
Qed.

Lemma ascii_text_no_nul (s : string) : ascii_text s -> has_nul s = false.
Proof.
  unfold ascii_text. induction s as [|c s IH]; intros H; [reflexivity|].
  simpl in H. inversion H as [|? ? Hc Hs]; subst. simpl.
  rewrite (IH Hs), orb_false_r. apply Nat.eqb_neq. lia.
Qed.

Lemma printable_no_nul (s : string) :
  Forall (fun c => 33 <= code c <= 126) (list_ascii_of_string s) ->
  has_nul s = false.
Proof.
  intros H. apply ascii_text_no_nul. unfold ascii_text.
  eapply Forall_impl; [|exact H]. simpl. intros c Hc. lia.
Qed.

Lemma split_chars_excess (s : string) :
  forall n,
    Forall (fun c => 33 <= code c <= 126) (list_ascii_of_string s) ->
    n < String.length s ->
    exists head c t,
      split_chars n s = (head, String c t) /\ 33 <= code c <= 126.
Proof.
  induction s as [|c s IH]; intros n Hall Hlen; [simpl in Hlen; lia|].
  simpl in Hall, Hlen. inversion Hall as [|? ? Hc Hs]; subst.
  assert (Hcont : continuation c = false).
  { unfold continuation. apply andb_false_iff. left. apply Nat.leb_gt. lia. }
  cbn [split_chars]. rewrite Hcont. destruct n as [|n'].
  - exists EmptyString, c, s. split; [reflexivity | exact Hc].
  - destruct (IH n' Hs) as (head & c' & t & Hsplit & Hc'); [lia|].
    rewrite Hsplit. exists (String c head), c', t. split; [reflexivity | exact Hc'].
Qed.

Section Refusals.
Context {L : Libs}.

Lemma too_long_refused (n : nat) (v : jsval) :
  too_long n v ->
  varchar n (prepareValue v) = inl string_data_right_truncation.
Proof.
  intros (s & -> & Hlen & Hall). cbn [prepareValue]. unfold varchar.
  destruct (split_chars_excess s n Hall Hlen) as (head & c & t & -> & Hc).
  cbn [all_spaces].
  assert (Hspace : (code c =? 32) = false) by (apply Nat.eqb_neq; lia).
  now rewrite Hspace.
Qed.

(** A signup of a request that parsed, when the store provably refuses one
    of the two INSERTs: the generic 500, and the tables as before. *)
Lemma refused_signup (b : signup_body) (d : database) (n : nat) :
  txn d = Idle ->
  some_field_failed b = false ->
  (forall s, password b = JString s ->
     (exists err,
         new_user (users_id_seq d + 1) (prepareValue (username b))
                  (prepareValue (email b))
                  (Some (bcrypt_digest s saltRounds n)) (current d)
         = inl err)
     \/ forall r,
         exists err,
           new_address (addresses_id_seq d + 1) (u_id r)
                       (prepareValue (city b)) (prepareValue (country b))
                       (prepareValue (street b)) (prepareValue (pincode b))
                       {| users := users (current d) ++ [r];
                          addresses := addresses (current d) |}
           = inl err) ->
  responds (served (signup b) d n) 500 "Error Inserting Data"
  /\ committed (store (served (signup b) d n)) = current d.
Proof.
  intros Hidle Hvalid Hrefuse. unfold responds.
  destruct (signup_ends b d n Hidle) as [_ Hend].
  unfold all_parsed in Hend. rewrite Hvalid in Hend. simpl in Hend.
  destruct Hend as [(Hcur & Htxn & _ & _ & Hsent & _)
                   | (s & r & a & Hs & Hnew & Hnewa & _)].
  - split; [exact Hsent|]. unfold committed. now rewrite Htxn.
  - exfalso. destruct (Hrefuse s Hs) as [[err H] | H].
    + rewrite Hnew in H. discriminate H.
    + destruct (H r) as [err H']. rewrite Hnewa in H'. discriminate H'.
Qed.

(** X5. UNIQUE on username and email reaches the client as the generic 500:
    when a request that parsed carries a username, or an email of at most 50
    characters, that a user row already has, the signup answers 500 "Error
    Inserting Data" and the tables are as before. *)
Theorem taken_username_or_email_is_refused :
  forall (b : signup_body) (d : database) (n : nat),
    txn d = Idle ->
    some_field_failed b = false ->
    (exists s, username b = JString s
               /\ In s (map u_username (users (current d))))
    \/ (exists e, email b = JString e
                  /\ String.length e <= 50
                  /\ In e (map u_email (users (current d)))) ->
    responds (served (signup b) d n) 500 "Error Inserting Data"
    /\ committed (store (served (signup b) d n)) = current d.
Proof.
  intros b d n Hidle Hvalid Htaken.
  apply refused_signup; [exact Hidle | exact Hvalid |].
  intros pw Hpw. left.
  destruct Htaken as [(s & Hs & Hin) | (e & He & Hlen & Hin)].
  - assert (Hparsed : all_parsed b = true)
      by (unfold all_parsed; now rewrite Hvalid).
    destruct (proj1 (all_parsed_true b) Hparsed) as (Hname & _).
    destruct (proj1 (usernameSchema_rule (username b)) Hname)
      as (s' & Hs' & Hlen & _).
    rewrite Hs in Hs'. inversion Hs'; subst s'.
    rewrite Hs. cbn [prepareValue].
    apply new_user_username_taken; [lia | exact Hin].
  - rewrite He. cbn [prepareValue].
    now apply new_user_email_taken.
Qed.

(** X6. Validation checks no length but the username's, the columns do: when
    a request that parsed carries, as email, more than 50 printable ASCII
    characters without a space, or more than 100 as city, country or street,
    or more than 20 as pincode, the signup answers the generic 500 and the
    tables are as before; the user row inserted before the address was
    refused is rolled back. *)
Theorem oversized_field_is_refused :
  forall (b : signup_body) (d : database) (n : nat),
    txn d = Idle ->
    some_field_failed b = false ->
    too_long 50 (email b) \/ too_long 100 (city b)
    \/ too_long 100 (country b) \/ too_long 100 (street b)
    \/ too_long 20 (pincode b) ->
    responds (served (signup b) d n) 500 "Error Inserting Data"
    /\ committed (store (served (signup b) d n)) = current d.
Proof.
  intros b d n Hidle Hvalid Hover.
  apply refused_signup; [exact Hidle | exact Hvalid |].
  intros pw Hpw.
  destruct Hover as [H | H].
  - left. eapply new_user_email_too_long. apply too_long_refused. exact H.
  - right. intros r. apply new_address_too_long.
    destruct H as [H | [H | [H | H]]]; apply too_long_refused in H; eauto 6.
Qed.

(** X7. What makes a signup succeed, and what it then stores. For a
    consistent store and seven strings (a username that follows the rule, an
    email zod accepts) that fit their columns, a username and an email no
    user row has, a digest that fits VARCHAR(100) and sequences below their
    maximum, the strings and the digest being ASCII text, the signup
    answers 201; the store is the store of before with
    the next two ids given out, a user row holding the username, the email
    and the digest of the password, and an address row holding the city,
    country, street and pincode under the id of that user. *)
Theorem fresh_fitting_signup_succeeds :
  forall (name mail pw c k st z : string) (d : database) (n : nat),
    consistent d ->
    username_rule (JString name) ->
    zod_email mail = true ->
    ascii_text mail ->
    ascii_text c ->
    ascii_text k ->
    ascii_text st ->
    ascii_text z ->
    ascii_text (bcrypt_digest pw saltRounds n) ->
    String.length mail <= 50 ->
    String.length c <= 100 ->
    String.length k <= 100 ->
    String.length st <= 100 ->
    String.length z <= 20 ->
    String.length (bcrypt_digest pw saltRounds n) <= 100 ->
    ~ In name (map u_username (users (current d))) ->
    ~ In mail (map u_email (users (current d))) ->
    (users_id_seq d < 2147483647)%Z ->
    (addresses_id_seq d < 2147483647)%Z ->
    responds (served (signup (payload name mail pw c k st z)) d n)
             201 "Data Inserted Successfully"
    /\ store (served (signup (payload name mail pw c k st z)) d n)
       = {| current :=
              {| users :=
                   users (current d)
                   ++ [{| u_id := users_id_seq d + 1; u_username := name;
                          u_email := mail;
                          u_password := bcrypt_digest pw saltRounds n |}];
                 addresses :=
                   addresses (current d)
                   ++ [{| a_id := addresses_id_seq d + 1;
                          a_user_id := users_id_seq d + 1;
                          a_city := c; a_country := k; a_street := st;
                          a_pincode := Some z |}] |};
            users_id_seq := users_id_seq d + 1;
            addresses_id_seq := addresses_id_seq d + 1;
            txn := Idle |}.
Proof.
  intros name mail pw c k st z d n Hd Hname Hzod Amail Ac Ak Ast Az Apw
    Hmail Hc Hk Hst Hz Hpw Hfree Hfree' Hu Ha.
  set (b := payload name mail pw c k st z).
  assert (Hlen : String.length name <= 50).
  { destruct Hname as (s & Hs & Hlen & _). inversion Hs; subst s. lia. }
  assert (Hparsed : all_parsed b = true).
  { apply all_parsed_true.
    split; [apply usernameSchema_rule; exact Hname|].
    split; [cbn; now rewrite Hzod|]. repeat split. }
  assert (Aname : has_nul name = false).
  { destruct Hname as (s & Hs & _ & Hall). inversion Hs; subst s.
    apply ascii_text_no_nul. unfold ascii_text.
    eapply Forall_impl; [|exact Hall]. simpl.
    unfold ascii_letter, ascii_digit. intros x [Hx | [Hx | ->]];
      [lia | lia | cbn; lia]. }
  pose proof (new_user_accepts (users_id_seq d) name mail
                (bcrypt_digest pw saltRounds n) (current d)
                Aname (ascii_text_no_nul _ Amail) (ascii_text_no_nul _ Apw)
                Hlen Hmail Hpw
                (users_id_from_seq d Hd) Hfree Hfree') as Hnew.
  assert (Hnewa : forall t,
    addresses t = addresses (current d) ->
    In (users_id_seq d + 1)%Z (map u_id (users t)) ->
    new_address (addresses_id_seq d + 1) (users_id_seq d + 1)
                (Some c) (Some k) (Some st) (Some z) t
    = inr {| a_id := addresses_id_seq d + 1; a_user_id := users_id_seq d + 1;
             a_city := c; a_country := k; a_street := st;
             a_pincode := Some z |}).
  { intros t Ht Hin.
    apply new_address_accepts; try assumption;
      try (now apply ascii_text_no_nul).
    rewrite Ht. exact (addresses_id_from_seq d Hd). }
  unfold responds.
  destruct (signup_ends b d n (no_open_transaction d Hd)) as [_ Hend].
  rewrite Hparsed in Hend.
  destruct Hend as [(_ & _ & _ & _ & _ & _ & Hwhy)
                   | (s & r & a & Hs & Hr & Hra & Hstore & Hsent & _)].
  - exfalso. destruct Hwhy as [Hnot | [(s & Hs & Hwhy) | (s & r & Hs & Hr & Hwhy)]].
    + discriminate Hnot.
    + inversion Hs; subst s. destruct Hwhy as [Hmax | [err Herr]]; [lia|].
      cbn [b payload username email prepareValue] in Herr.
      rewrite Hnew in Herr. discriminate Herr.
    + inversion Hs; subst s.
      cbn [b payload username email prepareValue] in Hr.
      rewrite Hnew in Hr. inversion Hr; subst r.
      destruct Hwhy as [Hmax | [err Herr]]; [lia|].
      cbn [b payload city country street pincode prepareValue u_id] in Herr.
      rewrite Hnewa in Herr; [discriminate Herr | reflexivity |].
      cbn [users]. rewrite map_app. apply in_or_app. right. now left.
  - inversion Hs; subst s.
    cbn [b payload username email prepareValue] in Hr.
    rewrite Hnew in Hr. inversion Hr; subst r.
    cbn [b payload city country street pincode prepareValue u_id] in Hra.
    rewrite Hnewa in Hra; [| reflexivity |].
    2:{ cbn [users]. rewrite map_app. apply in_or_app. right. now left. }
    inversion Hra; subst a.
    split; [exact Hsent | exact Hstore].
Qed.
End Refusals.

Lemma fresh_fitting_signup_succeeds_witness :
  responds (served (signup (L := stand_in)
                      (payload "al" "a@b.com" "x" "NY" "US" "Main" "10001"))
                   empty_database 0)
           201 "Data Inserted Successfully"
  /\ store (served (signup (L := stand_in)
                      (payload "al" "a@b.com" "x" "NY" "US" "Main" "10001"))
                   empty_database 0)
     = {| current :=
            {| users :=
                 users (current empty_database)
                 ++ [{| u_id := users_id_seq empty_database + 1;
                        u_username := "al"; u_email := "a@b.com";
                        u_password :=
                          bcrypt_digest (Libs := stand_in) "x" saltRounds 0 |}];
               addresses :=
                 addresses (current empty_database)
                 ++ [{| a_id := addresses_id_seq empty_database + 1;
                        a_user_id := users_id_seq empty_database + 1;
                        a_city := "NY"; a_country := "US"; a_street := "Main";
                        a_pincode := Some "10001" |}] |};
          users_id_seq := users_id_seq empty_database + 1;
          addresses_id_seq := addresses_id_seq empty_database + 1;
          txn := Idle |}.
Proof.
  apply (fresh_fitting_signup_succeeds (L := stand_in)
           "al" "a@b.com" "x" "NY" "US" "Main" "10001" empty_database 0).
  - constructor; simpl; try constructor; intros ? [].
  - apply (usernameSchema_rule (L := stand_in)). reflexivity.
  - reflexivity.
  - repeat (constructor; [cbn; lia|]). constructor.
  - repeat (constructor; [cbn; lia|]). constructor.
  - repeat (constructor; [cbn; lia|]). constructor.
  - repeat (constructor; [cbn; lia|]). constructor.
  - repeat (constructor; [cbn; lia|]). constructor.
  - repeat (constructor; [cbn; lia|]). constructor.
  - simpl. lia.
  - simpl. lia.
  - simpl. lia.
  - simpl. lia.
  - simpl. lia.
  - simpl. lia.
  - intros [].
  - intros [].
  - reflexivity.
  - reflexivity.
Defined.

Lemma taken_username_or_email_is_refused_witness :
  responds (served (signup (L := stand_in) same_username) store_with_al 1)
           500 "Error Inserting Data"
  /\ committed (store (served (signup (L := stand_in) same_username)
                              store_with_al 1))
     = current store_with_al.
Proof.
  apply (taken_username_or_email_is_refused (L := stand_in) same_username
           store_with_al 1 eq_refl eq_refl).
  left. exists "al". split; [reflexivity | vm_compute; left; reflexivity].
Defined.

Lemma oversized_field_is_refused_witness :
  responds (served (signup (L := stand_in) long_city) empty_database 0)
           500 "Error Inserting Data"
  /\ committed (store (served (signup (L := stand_in) long_city)
                              empty_database 0))
     = current empty_database.
Proof.
  apply (oversized_field_is_refused (L := stand_in) long_city empty_database 0
           eq_refl eq_refl).
  right. left. exists (string_of_list_ascii (repeat "x"%char 101)).
  split; [reflexivity|]. split; [cbn; lia|].
  rewrite list_ascii_of_string_of_list_ascii. apply Forall_forall.
  intros c Hc. apply repeat_spec in Hc. subst c. cbn. lia.
Defined.

(** An email that is taken, too. *)
Example taken_email_is_refused :
  responds (served (signup (L := stand_in) same_email) store_with_al 1)
           500 "Error Inserting Data"
  /\ committed (store (served (signup (L := stand_in) same_email)
                              store_with_al 1))
     = current store_with_al.
Proof. split; reflexivity. Qed.

(** * Beyond the claims: the constraints of the DDL hold between requests *)

Lemma new_user_fresh (id : Z) (u e p : option string) (t : tables) (r : user_row) :
  new_user id u e p t = inr r ->
  existsb (fun x => String.eqb (u_username x) (u_username r)) (users t) = false
  /\ existsb (fun x => String.eqb (u_email x) (u_email r)) (users t) = false.
Proof.
  unfold new_user. intros H.
  destruct (users_columns u e p) as [err | [[u' e'] p']]; [discriminate H|].
  unfold users_row, sql_bind, not_null, unique in H.
  split_matches. inversion H; subst; clear H. simpl.
  split; congruence.
Qed.

Lemma new_address_fresh (id uid : Z) (c k s z : option string) (t : tables)
    (r : address_row) :
  new_address id uid c k s z t = inr r ->
  existsb (fun x => (a_id x =? a_id r)%Z) (addresses t) = false.
Proof.
  unfold new_address. intros H.
  destruct (addresses_columns c k s z) as [err | [[[c' k'] s'] z']];
    [discriminate H|].
  unfold addresses_row, sql_bind, not_null, unique in H.
  split_matches. inversion H; subst; clear H. simpl. congruence.
Qed.

Lemma NoDup_snoc {A B : Type} (f : A -> B) (l : list A) (x : A) :
  NoDup (map f l) -> ~ In (f x) (map f l) -> NoDup (map f (l ++ [x])).
Proof.
  intros Hnd Hx. rewrite map_app. simpl. apply NoDup_app.
  - exact Hnd.
  - constructor; [intros [] | constructor].
  - intros y Hy [<- | []]. now apply Hx.
Qed.

Lemma consistent_empty : consistent empty_database.
Proof. constructor; simpl; try constructor; intros ? []. Qed.

Section Consistency.
Context {L : Libs}.

Lemma signup_keeps_consistent (b : signup_body) (d : database) (n : nat) :
  consistent d -> consistent (store (served (signup b) d n)).
Proof.
  intros Hd.
  destruct (signup_ends b d n (no_open_transaction d Hd)) as [_ Hend].
  destruct Hend as [(Hcur & Htxn & Hu & Ha & _)
                   | (s & r & a & _ & Hr & Hra & Hstore & _)].
  - constructor; rewrite ?Hcur; try apply Hd; try assumption.
    + intros u Hin. pose proof (users_id_from_seq d Hd u Hin). lia.
    + intros x Hin. pose proof (addresses_id_from_seq d Hd x Hin). lia.
  - destruct (new_user_inv _ _ _ _ _ _ Hr) as (Hid & _ & _ & _ & Hfresh).
    destruct (new_user_fresh _ _ _ _ _ _ Hr) as (Hname & Hmail).
    destruct (new_address_inv _ _ _ _ _ _ _ _ Hra) as (Haid & Huid & _).
    pose proof (new_address_fresh _ _ _ _ _ _ _ _ Hra) as Hafresh.
    cbn [addresses] in Hafresh.
    rewrite Hstore. constructor; cbn [current users addresses txn users_id_seq
                                      addresses_id_seq].
    + reflexivity.
    + apply NoDup_snoc; [apply Hd|]. intros Hin.
      apply in_map_iff in Hin. destruct Hin as (x & Hx & Hin).
      pose proof (users_id_from_seq d Hd x Hin). lia.
    + apply NoDup_snoc; [apply Hd|]. intros Hin.
      apply username_taken in Hin. congruence.
    + apply NoDup_snoc; [apply Hd|]. intros Hin.
      apply email_taken in Hin. congruence.
    + apply NoDup_snoc; [apply Hd|]. intros Hin.
      apply in_map_iff in Hin. destruct Hin as (x & Hx & Hin).
      pose proof (proj1 (existsb_false _ _) Hafresh x Hin) as Hne.
      apply Z.eqb_neq in Hne. congruence.
    + intros x Hin. rewrite map_app. apply in_or_app.
      apply in_app_or in Hin. destruct Hin as [Hin | [<- | []]].
      * left. now apply (addresses_user_id_fkey d Hd).
      * right. left. congruence.
    + intros x Hin. apply in_app_or in Hin. destruct Hin as [Hin | [<- | []]].
      * pose proof (users_id_from_seq d Hd x Hin). lia.
      * lia.
    + intros x Hin. apply in_app_or in Hin. destruct Hin as [Hin | [<- | []]].
      * pose proof (addresses_id_from_seq d Hd x Hin). lia.
      * lia.
Qed.

Lemma serve_keeps_consistent (st : database * nat) (r : request) :
  consistent (fst st) -> consistent (fst (serve st r)).
Proof.
  intros Hd. destruct r as [b | id | id]; cbn [serve handler fst].
  - now apply signup_keeps_consistent.
  - destruct (badapproach_run id (fst st) (snd st) (no_open_transaction _ Hd))
      as [-> _]. exact Hd.
  - destruct (goodapproach_run id (fst st) (snd st) (no_open_transaction _ Hd))
      as [-> _]. exact Hd.
Qed.

(** X8. The constraints that [src/schema.ts] declares hold in every store
    the handlers can reach from the empty tables, whatever the requests and
    their order: no transaction is left open, the ids of users and of
    addresses, the usernames and the emails are keys, and every address
    refers to a user row. *)
Theorem reachable_stores_are_consistent :
  forall (rs : list request) (n : nat),
    consistent (fst (serve_all rs (empty_database, n))).
Proof.
  intros rs n. unfold serve_all.
  assert (H : forall st, consistent (fst st) ->
                         consistent (fst (fold_left serve rs st))).
  { induction rs as [|r rs IH]; intros st Hst; [exact Hst|].
    simpl. apply IH. now apply serve_keeps_consistent. }
  apply H. exact consistent_empty.
Qed.
End Consistency.

(** * Beyond the claims: the two lookups *)

Section LookupProperties.
Context {L : Libs}.

Local Arguments exec : simpl never.

Lemma goodapproach_world (q : jsval) (d : database) (k : nat) :
  txn d = Idle ->
  goodapproach q (arrival d k)
  = (Returned tt,
     {| store := d; salts := k;
        sent := Some match select_join (prepareValue q) (current d) with
                     | inl _ => (500%Z, message "Error Fetching Data")
                     | inr [] => (404%Z, message "User Not Found")
                     | inr (row0 :: _) => (200%Z, userAndAddresses row0)
                     end;
        trace :=
          Query (SELECT_join (prepareValue q))
          :: match select_join (prepareValue q) (current d) with
             | inl e => [ConsoleError "Error Fetching Data" (DatabaseError e);
                         Json 500 (message "Error Fetching Data")]
             | inr [] => [Json 404 (message "User Not Found")]
             | inr (row0 :: _) => [Json 200 (userAndAddresses row0)]
             end |}).
Proof.
  intros Hidle. unfold goodapproach, try_catch. cbv zeta.
  rewrite bind_query. cbn [arrival store].
  rewrite (exec_SELECT_join_idle _ d Hidle).
  destruct (select_join (prepareValue q) (current d)) as [e | [|row0 rest]];
    reflexivity.
Qed.

Lemma badapproach_world (q : jsval) (d : database) (k : nat) :
  txn d = Idle ->
  badapproach q (arrival d k)
  = (Returned tt,
     {| store := d; salts := k;
        sent := Some match select_user (prepareValue q) (current d) with
                     | inl _ => (500%Z, message "Error Fetching Data")
                     | inr [] => (404%Z, message "User Not Found")
                     | inr (user :: _) =>
                         match select_addresses (prepareValue q) (current d) with
                         | inl _ => (500%Z, message "Error Fetching Data")
                         | inr addresses => (200%Z, user_addresses user addresses)
                         end
                     end;
        trace :=
          Query (SELECT_user (prepareValue q))
          :: match select_user (prepareValue q) (current d) with
             | inl e => [ConsoleError "Error Fetching Data" (DatabaseError e);
                         Json 500 (message "Error Fetching Data")]
             | inr [] => [Json 404 (message "User Not Found")]
             | inr (user :: _) =>
                 Query (SELECT_addresses (prepareValue q))
                 :: match select_addresses (prepareValue q) (current d) with
                    | inl e =>
                        [ConsoleError "Error Fetching Data" (DatabaseError e);
                         Json 500 (message "Error Fetching Data")]
                    | inr addresses =>
                        [Json 200 (user_addresses user addresses)]
                    end
             end |}).
Proof.
  intros Hidle. unfold badapproach, try_catch. cbv zeta.
  rewrite bind_query. cbn [arrival store].
  rewrite (exec_SELECT_user_idle _ d Hidle).
  destruct (select_user (prepareValue q) (current d)) as [e | [|user rest]];
    try reflexivity.
  rewrite bind_query. unfold stored, logged. cbn [store salts sent trace].
  rewrite (exec_SELECT_addresses_idle _ d Hidle).
  destruct (select_addresses (prepareValue q) (current d)) as [e | rows];
    reflexivity.
Qed.

Lemma users_with_id_sound (n : Z) (t : tables) (u : user_row) :
  In u (users_with_id n t) -> u_id u = n.
Proof.
  unfold users_with_id. rewrite filter_In. intros [_ H]. now apply Z.eqb_eq.
Qed.

Lemma join_without_address (n : Z) (t : tables) (l : list user_row) :
  (forall u, In u l -> u_id u = n) ->
  addresses_of n t = [] ->
  flat_map (fun u => map (joined u) (addresses_of (u_id u) t)) l = [].
Proof.
  intros Hl Hnone. induction l as [|u l IH]; [reflexivity|].
  simpl. rewrite (Hl u (or_introl eq_refl)), Hnone. simpl.
  apply IH. intros x Hx. apply Hl. now right.
Qed.

(** X9. The joined lookup answers what the two-query lookup answers, cut
    down: the same 404 or 500; 404 "User Not Found" where the two-query lookup
    finds a user with no address; and where it finds a user with addresses,
    200 with that user's id, username and email beside the city, country,
    street and pincode of the first address alone. *)
Theorem goodapproach_is_badapproach_cut_down :
  forall (q : jsval) (d : database) (k : nat),
    txn d = Idle ->
    sent (served (goodapproach q) d k)
    = joined_answer (sent (served (badapproach q) d k)).
Proof.
  intros q d k Hidle. unfold served.
  rewrite (goodapproach_world q d k Hidle), (badapproach_world q d k Hidle).
  cbn [snd sent]. unfold select_join, select_user, select_addresses, sql_bind.
  destruct (int4 (prepareValue q)) as [e | [n|]]; try reflexivity.
  destruct (users_with_id n (current d)) as [|u rest] eqn:Hu; [reflexivity|].
  assert (Hall : forall x, In x (u :: rest) -> u_id x = n).
  { intros x Hx. rewrite <- Hu in Hx. now apply users_with_id_sound in Hx. }
  cbn [map flat_map]. rewrite (Hall u (or_introl eq_refl)).
  destruct (addresses_of n (current d)) as [|a more] eqn:Ha.
  - cbn [map app].
    rewrite (join_without_address n (current d) rest); [reflexivity| |exact Ha].
    intros x Hx. apply Hall. now right.
  - cbn [map app]. unfold joined at 1.
    rewrite (Hall u (or_introl eq_refl)). reflexivity.
Qed.

(** X10. A lookup only reads and always answers: whatever the id parameter,
    the promise of either lookup resolves, the store is the store of before,
    and the client holds one response, of status 200, 404 or 500. *)
Theorem lookups_only_read_and_answer :
  forall (q : jsval) (d : database) (k : nat),
    txn d = Idle ->
    (fst (badapproach q (arrival d k)) = Returned tt
     /\ store (served (badapproach q) d k) = d
     /\ (status (served (badapproach q) d k) = Some 200%Z
         \/ status (served (badapproach q) d k) = Some 404%Z
         \/ status (served (badapproach q) d k) = Some 500%Z))
    /\ (fst (goodapproach q (arrival d k)) = Returned tt
        /\ store (served (goodapproach q) d k) = d
        /\ (status (served (goodapproach q) d k) = Some 200%Z
            \/ status (served (goodapproach q) d k) = Some 404%Z
            \/ status (served (goodapproach q) d k) = Some 500%Z)).
Proof.
  intros q d k Hidle. unfold served, status.
  rewrite (goodapproach_world q d k Hidle), (badapproach_world q d k Hidle).
  cbn [fst snd store sent option_map].
  split; (split; [reflexivity|]); (split; [reflexivity|]).
  - destruct (select_user (prepareValue q) (current d)) as [e | [|user rest]];
      auto.
    destruct (select_addresses (prepareValue q) (current d)); auto.
  - destruct (select_join (prepareValue q) (current d)) as [e | [|row0 rest]];
      auto.
Qed.

(** X11. One round trip against two: the joined lookup sends one statement
    whatever the id parameter; the two-query lookup sends the SELECT on
    users, and the SELECT on addresses after it exactly when it goes on to
    answer 200. *)
Theorem lookups_round_trips :
  forall (q : jsval) (d : database) (k : nat),
    txn d = Idle ->
    queries (trace (served (goodapproach q) d k))
    = [SELECT_join (prepareValue q)]
    /\ ((status (served (badapproach q) d k) = Some 200%Z
         /\ queries (trace (served (badapproach q) d k))
            = [SELECT_user (prepareValue q);
               SELECT_addresses (prepareValue q)])
        \/ (status (served (badapproach q) d k) <> Some 200%Z
            /\ queries (trace (served (badapproach q) d k))
               = [SELECT_user (prepareValue q)])).
Proof.
  intros q d k Hidle. unfold served, status.
  rewrite (goodapproach_world q d k Hidle), (badapproach_world q d k Hidle).
  cbn [snd trace sent option_map]. split.
  - destruct (select_join (prepareValue q) (current d)) as [e | [|row0 rest]];
      reflexivity.
  - unfold select_user, select_addresses, sql_bind.
    destruct (int4 (prepareValue q)) as [e | [n|]];
      try (right; split; [discriminate | reflexivity]).
    destruct (users_with_id n (current d)) as [|u rest];
      [right; split; [discriminate | reflexivity]|].
    left. split; reflexivity.
Qed.

(** X12. The edges of the id parameter. When it is absent or null both
    lookups answer 404 "User Not Found". When the server cannot read it as an
    integer both answer 500 "Error Fetching Data" after a single statement:
    the error of the server goes to the log and not to the client. *)
Theorem lookups_of_absent_and_unreadable_id :
  forall (q : jsval) (d : database) (k : nat),
    txn d = Idle ->
    absent_or_null q \/ (exists e, int4 (prepareValue q) = inl e) ->
    (absent_or_null q
     /\ responds (served (badapproach q) d k) 404 "User Not Found"
     /\ responds (served (goodapproach q) d k) 404 "User Not Found")
    \/ (exists e,
          int4 (prepareValue q) = inl e
          /\ trace (served (badapproach q) d k)
             = [Query (SELECT_user (prepareValue q));
                ConsoleError "Error Fetching Data" (DatabaseError e);
                Json 500 (message "Error Fetching Data")]
          /\ trace (served (goodapproach q) d k)
             = [Query (SELECT_join (prepareValue q));
                ConsoleError "Error Fetching Data" (DatabaseError e);
                Json 500 (message "Error Fetching Data")]
          /\ responds (served (badapproach q) d k) 500 "Error Fetching Data"
          /\ responds (served (goodapproach q) d k) 500 "Error Fetching Data").
Proof.
  intros q d k Hidle Hq. unfold served, responds.
  rewrite (goodapproach_world q d k Hidle), (badapproach_world q d k Hidle).
  cbn [snd trace sent].
  unfold select_user, select_join, select_addresses, sql_bind.
  destruct Hq as [Habsent | [e He]].
  - left. split; [exact Habsent|].
    destruct Habsent as [-> | ->]; split; reflexivity.
  - right. exists e. rewrite He. repeat split; reflexivity.
Qed.
End LookupProperties.

Lemma goodapproach_is_badapproach_cut_down_witness :
  sent (served (goodapproach (L := stand_in) (JString "1"))
               store_with_two_addresses 0)
  = joined_answer (sent (served (badapproach (L := stand_in) (JString "1"))
                                store_with_two_addresses 0)).
Proof.
  exact (goodapproach_is_badapproach_cut_down (L := stand_in) (JString "1")
           store_with_two_addresses 0 eq_refl).
Defined.

Lemma lookups_only_read_and_answer_witness :
  store (served (badapproach (L := stand_in) (JString "abc"))
                store_with_two_addresses 0)
  = store_with_two_addresses
  /\ store (served (goodapproach (L := stand_in) (JString "abc"))
                   store_with_two_addresses 0)
     = store_with_two_addresses.
Proof.
  destruct (lookups_only_read_and_answer (L := stand_in) (JString "abc")
              store_with_two_addresses 0 eq_refl)
    as [(_ & Hbad & _) (_ & Hgood & _)].
  split; [exact Hbad | exact Hgood].
Defined.

Lemma lookups_round_trips_witness :
  queries (trace (served (goodapproach (L := stand_in) (JString "1"))
                         store_with_two_addresses 0))
  = [SELECT_join (Some "1")].
Proof.
  exact (proj1 (lookups_round_trips (L := stand_in) (JString "1")
                  store_with_two_addresses 0 eq_refl)).
Defined.

Lemma lookups_of_absent_and_unreadable_id_witness :
  (absent_or_null JUndefined
   /\ responds (served (badapproach (L := stand_in) JUndefined)
                       store_with_two_addresses 0) 404 "User Not Found"
   /\ responds (served (goodapproach (L := stand_in) JUndefined)
                       store_with_two_addresses 0) 404 "User Not Found")
  \/ (exists e,
        int4 (L := stand_in) (prepareValue (L := stand_in) JUndefined) = inl e
        /\ trace (served (badapproach (L := stand_in) JUndefined)
                         store_with_two_addresses 0)
           = [Query (SELECT_user (prepareValue (L := stand_in) JUndefined));
              ConsoleError "Error Fetching Data" (DatabaseError e);
              Json 500 (message "Error Fetching Data")]
        /\ trace (served (goodapproach (L := stand_in) JUndefined)
                         store_with_two_addresses 0)
           = [Query (SELECT_join (prepareValue (L := stand_in) JUndefined));
              ConsoleError "Error Fetching Data" (DatabaseError e);
              Json 500 (message "Error Fetching Data")]
        /\ responds (served (badapproach (L := stand_in) JUndefined)
                            store_with_two_addresses 0)
                    500 "Error Fetching Data"
        /\ responds (served (goodapproach (L := stand_in) JUndefined)
                            store_with_two_addresses 0)
                    500 "Error Fetching Data").
Proof.
  apply (lookups_of_absent_and_unreadable_id (L := stand_in) JUndefined
           store_with_two_addresses 0 eq_refl).
  left. left. reflexivity.
Defined.

(** * Beyond the claims: signing up, then looking up *)

Lemma filter_none {A : Type} (f : A -> bool) (l : list A) :
  (forall x, In x l -> f x = false) -> filter f l = [].
Proof.
  induction l as [|y l IH]; intros H; [reflexivity|].
  simpl. rewrite (H y (or_introl eq_refl)). apply IH.
  intros x Hx. apply H. now right.
Qed.

Section RoundTrip.
Context {L : Libs}.

(** X13. A user that has signed up is found under the id given out. After a
    signup answered 201 on a consistent store, a lookup by a string the
    server reads as that id (the next value of the sequence of users.id)
    answers 200 in both variants: the joined one with the id, username and
    email of the new user row beside the city, country, street and pincode of
    the new address row; the two-query one with the id, username and email of
    the user and a list of exactly one address, the one just stored. The
    username returned is the one posted. *)
Theorem signed_up_user_is_found :
  forall (b : signup_body) (d : database) (n : nat) (text : string) (k : nat),
    consistent d ->
    responds (served (signup b) d n) 201 "Data Inserted Successfully" ->
    int4in text = Some (users_id_seq d + 1)%Z ->
    exists u a,
      current (store (served (signup b) d n))
      = {| users := users (current d) ++ [u];
           addresses := addresses (current d) ++ [a] |}
      /\ username b = JString (u_username u)
      /\ sent (served (goodapproach (JString text))
                      (store (served (signup b) d n)) k)
         = Some (200%Z,
                 userAndAddresses
                   (RJoined (users_id_seq d + 1) (u_username u) (u_email u)
                            (a_city a) (a_country a) (a_street a)
                            (a_pincode a)))
      /\ sent (served (badapproach (JString text))
                      (store (served (signup b) d n)) k)
         = Some (200%Z,
                 user_addresses
                   (RUser (users_id_seq d + 1) (u_username u) (u_email u))
                   [RAddress a]).
Proof.
  intros b d n text k Hd H201 Hq. unfold responds in H201.
  destruct (signup_ends b d n (no_open_transaction d Hd)) as [_ Hend].
  destruct (all_parsed b) eqn:Hvalid.
  2:{ exfalso.
      destruct Hend as [(_ & _ & _ & _ & Hsent & _)
                       | (s & r & a & _ & _ & _ & _ & Hsent & _)];
        rewrite Hsent in H201; discriminate H201. }
  destruct Hend as [(_ & _ & _ & _ & Hsent & _)
                   | (s & r & a & Hs & Hr & Hra & Hstore & _)].
  { exfalso. rewrite Hsent in H201. discriminate H201. }
  destruct (new_user_inv _ _ _ _ _ _ Hr) as (Hid & Hvar & _).
  destruct (new_address_inv _ _ _ _ _ _ _ _ Hra) as (_ & Huid & _).
  exists r, a. rewrite Hstore. cbn [current].
  split; [reflexivity|].
  assert (Hname : username b = JString (u_username r)).
  { destruct (proj1 (all_parsed_true b) Hvalid) as (Hu & _).
    destruct (proj1 (usernameSchema_rule (username b)) Hu)
      as (name & Hname & Hlen & _).
    rewrite Hname in Hvar |- *. cbn [prepareValue] in Hvar.
    rewrite varchar_short in Hvar by lia. now inversion Hvar. }
  split; [exact Hname|].
  set (d' := {| current := {| users := users (current d) ++ [r];
                              addresses := addresses (current d) ++ [a] |};
                users_id_seq := users_id_seq d + 1;
                addresses_id_seq := addresses_id_seq d + 1;
                txn := Idle |}).
  assert (Husers : users_with_id (users_id_seq d + 1) (current d') = [r]).
  { unfold users_with_id. cbn [d' current users]. rewrite filter_app.
    rewrite filter_none.
    - simpl. rewrite Hid. now rewrite Z.eqb_refl.
    - intros x Hx. apply Z.eqb_neq.
      pose proof (users_id_from_seq d Hd x Hx). lia. }
  assert (Haddrs : addresses_of (users_id_seq d + 1) (current d') = [a]).
  { unfold addresses_of. cbn [d' current addresses]. rewrite filter_app.
    rewrite filter_none.
    - simpl. rewrite Huid, Hid. now rewrite Z.eqb_refl.
    - intros x Hx. apply Z.eqb_neq.
      pose proof (addresses_user_id_fkey d Hd x Hx) as Hfk.
      apply in_map_iff in Hfk. destruct Hfk as (y & Hy & Hin).
      pose proof (users_id_from_seq d Hd y Hin). lia. }
  destruct (goodapproach_run (JString text) d' k eq_refl) as [_ ->].
  destruct (badapproach_run (JString text) d' k eq_refl) as [_ ->].
  unfold select_join, select_user, select_addresses, sql_bind, int4.
  cbn [prepareValue]. rewrite Hq, Husers, Haddrs.
  cbn [map flat_map app]. rewrite Hid, Haddrs. unfold joined.
  rewrite Hid. split; reflexivity.
Qed.
End RoundTrip.

Lemma signed_up_user_is_found_witness :
  exists u a,
    current (store (served (signup (L := stand_in) al) empty_database 0))
    = {| users := users (current empty_database) ++ [u];
         addresses := addresses (current empty_database) ++ [a] |}
    /\ username al = JString (u_username u)
    /\ sent (served (goodapproach (L := stand_in) (JString "1"))
                    (store (served (signup (L := stand_in) al)
                                   empty_database 0)) 0)
       = Some (200%Z,
               userAndAddresses
                 (RJoined (users_id_seq empty_database + 1) (u_username u)
                          (u_email u) (a_city a) (a_country a) (a_street a)
                          (a_pincode a)))
    /\ sent (served (badapproach (L := stand_in) (JString "1"))
                    (store (served (signup (L := stand_in) al)
                                   empty_database 0)) 0)
       = Some (200%Z,
               user_addresses
                 (RUser (users_id_seq empty_database + 1) (u_username u)
                        (u_email u))
                 [RAddress a]).
Proof.
  exact (signed_up_user_is_found (L := stand_in) al empty_database 0
           "1" 0 consistent_empty eq_refl eq_refl).
Defined.

(** * Beyond the claims: table creation *)

(** X14. [createTable] creates what is missing and touches nothing else:
    from any catalog it logs the two success lines and no error (the table
    users is there before the foreign key of addresses needs it), both
    tables are present afterwards, a table that was present keeps its rows
    and its sequence, and a table that was absent is empty. *)
Theorem createTable_creates_what_is_missing :
  forall (c : catalog),
    fst (createTable c)
    = [Log "Users Table Created Successfully";
       Log "Addresses Table Created Successfully"]
    /\ users_table (snd (createTable c))
       = Some match users_table c with
              | Some t => t
              | None => ([], 0%Z)
              end
    /\ addresses_table (snd (createTable c))
       = Some match addresses_table c with
              | Some t => t
              | None => ([], 0%Z)
              end.
Proof.
  intros [[us|] [ads|]]; repeat split; reflexivity.
Qed.

(** X15. Running [createTable] again changes nothing, and on a database
    with no table it leaves the empty store the handlers start from. *)
Theorem createTable_is_idempotent :
  forall (c : catalog),
    snd (createTable (snd (createTable c))) = snd (createTable c)
    /\ fst (createTable (snd (createTable c))) = fst (createTable c)
    /\ installed (snd (createTable no_table)) = Some empty_database.
Proof.
  intros [[us|] [ads|]]; repeat split; reflexivity.
Qed.

(** * Beyond the claims: what reaches the store *)

Section Digest.
Context {L : Libs}.

Local Arguments run : simpl never.
Local Arguments exec : simpl never.

(** X16. What the store is sent for the password is its digest: whatever
    the request, every INSERT into users that the signup handler sends
    carries, as its password parameter, the bcrypt digest of the posted
    password for the cost 10, and the username and email as posted. *)
Theorem signup_sends_only_the_digest :
  forall (b : signup_body) (d : database) (n : nat)
         (u e p : option string),
    txn d = Idle ->
    In (Query (INSERT_users u e p)) (trace (served (signup b) d n)) ->
    exists s,
      password b = JString s
      /\ p = Some (bcrypt_digest s saltRounds n)
      /\ u = prepareValue (username b)
      /\ e = prepareValue (email b).
Proof.
  intros b d n u e p Hidle Hin.
  assert (Hrej : ~ In (Query (INSERT_users u e p)) (rejection b)).
  { unfold rejection, invalid_entry. destruct (all_parsed b); simpl.
    - tauto.
    - intros [H | []]. discriminate H. }
  assert (Hcatch : forall err, ~ In (Query (INSERT_users u e p)) (catch_calls err)).
  { intros err. unfold catch_calls. simpl.
    intros [H | [H | [H | []]]]; discriminate H. }
  assert (Hq1 : forall s,
    Query (users_statement b (bcrypt_digest s saltRounds n))
    = Query (INSERT_users u e p) ->
    p = Some (bcrypt_digest s saltRounds n)
    /\ u = prepareValue (username b) /\ e = prepareValue (email b)).
  { intros s H. unfold users_statement in H. cbn [prepareValue] in H.
    inversion H. repeat split. }
  destruct (signup_try_cases b d n Hidle) as [[_ Heq] | (s & Hs & Hcases)].
  { exfalso. rewrite (signup_thrown b d n _ _ Heq) in Hin. cbn [trace] in Hin.
    repeat (apply in_app_or in Hin; destruct Hin as [Hin | Hin]);
      try (now apply Hrej in Hin); try (now apply Hcatch in Hin).
    destruct Hin as [H | []]. discriminate H. }
  cbv zeta in Hcases. exists s. split; [exact Hs|].
  destruct Hcases
    as [(err & d1 & _ & Heq) | (r & d1 & _ & _ & _ & _ & Hcases)].
  { rewrite (signup_thrown b d n _ _ Heq) in Hin. cbn [trace] in Hin.
    repeat (apply in_app_or in Hin; destruct Hin as [Hin | Hin]);
      try (now apply Hrej in Hin); try (now apply Hcatch in Hin).
    destruct Hin as [H | [H | [H | []]]]; try discriminate H.
    now apply Hq1. }
  destruct Hcases
    as [(err & d2 & _ & Heq) | (rows & d2 & a & _ & _ & _ & Heq)].
  { rewrite (signup_thrown b d n _ _ Heq) in Hin. cbn [trace] in Hin.
    repeat (apply in_app_or in Hin; destruct Hin as [Hin | Hin]);
      try (now apply Hrej in Hin); try (now apply Hcatch in Hin).
    destruct Hin as [H | [H | [H | [H | [H | []]]]]]; try discriminate H.
    now apply Hq1. }
  destruct (all_parsed b) eqn:Hvalid.
  - rewrite (signup_returned b d n _ Heq) in Hin. cbn [trace] in Hin.
    repeat (apply in_app_or in Hin; destruct Hin as [Hin | Hin]);
      try (now apply Hrej in Hin).
    + destruct Hin as [H | [H | [H | [H | [H | []]]]]]; try discriminate H.
      now apply Hq1.
    + destruct Hin as [H | [H | [H | []]]]; discriminate H.
  - rewrite (signup_thrown b d n _ _ Heq) in Hin. cbn [trace] in Hin.
    repeat (apply in_app_or in Hin; destruct Hin as [Hin | Hin]);
      try (now apply Hrej in Hin); try (now apply Hcatch in Hin).
    + destruct Hin as [H | [H | [H | [H | [H | []]]]]]; try discriminate H.
      now apply Hq1.
    + destruct Hin as [H | [H | [H | []]]]; discriminate H.
Qed.
End Digest.

Lemma signup_sends_only_the_digest_witness :
  exists s,
    password al = JString s
    /\ Some "$2b$10$x" = Some (bcrypt_digest (Libs := stand_in) s saltRounds 0)
    /\ Some "al" = prepareValue (L := stand_in) (username al)
    /\ Some "a@b.com" = prepareValue (L := stand_in) (email al).
Proof.
  apply (signup_sends_only_the_digest (L := stand_in) al empty_database 0
           (Some "al") (Some "a@b.com") (Some "$2b$10$x") eq_refl).
  vm_compute. right. right. left. reflexivity.
Defined.
